(** * prisma-trpc-generator: the [generate] entry point

    A shallow embedding of [src/prisma-generator.ts].  The generator walks
    the operation-mapping table of a Prisma schema and writes, through a
    ts-morph [project], one bootstrap file, one router file per entity, an
    aggregate router and (optionally) a trpc-shield policy file.

    The embedding keeps the shape of the source:
    - the ts-morph [project] is a finite map from paths to source files,
      a source file being the ordered list of the things added to it;
    - filesystem calls, the two delegate generators, [getDMMF] and
      [project.save] are events of a trace, threaded together with the
      project through a small state-and-error monad;
    - the collaborators that live outside [prisma-generator.ts] are the
      fields of a record [Externals] that [generate] takes as argument. *)

From Stdlib Require Import String Ascii List Bool Arith Lia.
From stdpp Require Import base option list gmap strings fin_maps.
Import ListNotations.

Local Open Scope string_scope.
Local Open Scope list_scope.

(** ** JavaScript strings and values *)

Module Js.

(** A value of the dynamically typed configuration: the source tests
    [config.withZod] and [config.withShield] for truthiness and compares
    [config.withShield] with [=== true]. *)
Inductive value : Type :=
| VUndefined
| VNull
| VBool (b : bool)
| VString (s : string).

(** [if (v)]: JavaScript truthiness. *)
Definition truthy (v : value) : bool :=
  match v with
  | VUndefined | VNull => false
  | VBool b => b
  | VString s => negb (String.eqb s "")
  end.

(** [v === true]. *)
Definition is_true (v : value) : bool :=
  match v with
  | VBool true => true
  | _ => false
  end.

(** [s.replace(pat, rep)] with a string pattern: the first occurrence
    of [pat] in [s], if any, is replaced.  The source only calls it with
    the replacement [''], which holds no [$] pattern. *)
Fixpoint replace (pat rep s : string) : string :=
  if String.prefix pat s
  then rep +:+ String.substring (String.length pat)
                (String.length s - String.length pat) s
  else match s with
       | EmptyString => EmptyString
       | String c s' => String c (replace pat rep s')
       end.

(** [c.toLowerCase()] on one character; entity names of a Prisma schema
    are ASCII identifiers. *)
Definition lower_ascii (c : ascii) : ascii :=
  let n := nat_of_ascii c in
  if (65 <=? n)%nat && (n <=? 90)%nat then ascii_of_nat (n + 32) else c.

Fixpoint toLowerCase (s : string) : string :=
  match s with
  | EmptyString => EmptyString
  | String c s' => String (lower_ascii c) (toLowerCase s')
  end.

(** [arr.includes(x)] on an array of strings. *)
Definition includes (arr : list string) (x : string) : bool :=
  existsb (String.eqb x) arr.

(** [arr.join(sep)]; [`${arr}`] is [arr.join(',')]. *)
Fixpoint join (sep : string) (arr : list string) : string :=
  match arr with
  | [] => ""
  | [x] => x
  | x :: rest => x +:+ sep +:+ join sep rest
  end.

(** A plain object with string values: its own properties in insertion
    order.  A property whose value is [null] or [undefined] is [None]. *)
Definition object (V : Type) : Type := list (string * V).

(** [Object.keys(o)]. *)
Definition keys {V} (o : object V) : list string := map fst o.

(** [o[k]]. *)
Fixpoint get {V} (o : object V) (k : string) : option V :=
  match o with
  | [] => None
  | (k', v) :: o' => if String.eqb k' k then Some v else get o' k
  end.

(** [o[k] = v]: an existing property keeps its place, a new one goes
    last. *)
Fixpoint set {V} (o : object V) (k : string) (v : V) : object V :=
  match o with
  | [] => [(k, v)]
  | (k', v') :: o' =>
      if String.eqb k' k then (k', v) :: o' else (k', v') :: set o' k v
  end.

End Js.

(** ** The data the generator reads *)

(** A path is the list of its segments: [path.resolve(outputDir, a, b)]
    is [outputDir ++ [a; b]] and [path.join(outputDir, './shield')] is
    [outputDir ++ ["shield"]].  The output directory is absolute, and an
    entity name, being an identifier, holds no separator. *)
Abbreviation Path := (list string).

(** The validated run configuration, [results.data] of
    [configSchema.safeParse]: the five options [generate] reads. *)
Record Config : Type := {
  withZod : Js.value;
  withShield : Js.value;
  contextPath : string;
  generateModelActions : list string;
  emitterPath : string
}.

(** An entry of [options.otherGenerators]; [provider] is the value that
    [parseEnvValue] gives. *)
Record GeneratorConfig : Type := {
  provider : string;
  previewFeatures : list string
}.

(** [GeneratorOptions], with [generator_output] the value that
    [parseEnvValue(options.generator.output)] gives. *)
Record Options : Type := {
  generator_output : Path;
  generator_config : Js.object string;
  otherGenerators : list GeneratorConfig;
  datamodel : string;
  schemaPath : string
}.

(** [DMMF.ModelMapping]: the entity name and, as [operations], the rest of
    the object ([const { model, ...operations } = modelOperation]), which
    maps an operation kind to the declared operation name. *)
Record ModelMapping : Type := {
  model : string;
  operations : Js.object (option string)
}.

(** [DMMF.Datamodel] entity: name and documentation comment. *)
Record Model : Type := {
  name : string;
  documentation : option string
}.

(** The part of the document that [getDMMF] resolves to and that
    [generate] reads: [mappings.modelOperations] and [datamodel.models]. *)
Record Document : Type := {
  modelOperations : list ModelMapping;
  models : list Model
}.

(** [shieldConfig]: the three buckets of the permission matrix. *)
Record ShieldConfig : Type := {
  query : Js.object string;
  mutation : Js.object string;
  subscription : Js.object string
}.

(** ** Generated source files *)

(** What [generate] adds to a ts-morph source file.  Text statements and
    import declarations are kept as they are written; a call of a helper
    of [./helpers] on the file is kept as the call with its arguments. *)
Inductive Stmt : Type :=
| TRPCImport
    (* generatetRPCImport(file) *)
| ShieldImport (options : Options) (value : Js.value)
    (* generateShieldImport(file, options, value) *)
| BaseRouter (config : Config) (options : Options)
    (* generateBaseRouter(file, config, options) *)
| CreateRouterImport (config : option Config)
    (* generateCreateRouterImport({ sourceFile: file, config }) *)
| RouterImport (modelNamePlural modelName : string)
    (* generateRouterImport(file, plural, model) *)
| RouterSchemaImports (modelName : string) (modelActions : list string)
    (* generateRouterSchemaImports(file, model, modelActions) *)
| ImportDeclaration (moduleSpecifier : string) (namedImports : list string)
    (* file.addImportDeclaration({ moduleSpecifier, namedImports }) *)
| Statements (text : string)
    (* file.addStatements(text) *)
| Procedure (opNameWithModel : string) (typeName : option string)
    (modelName opType baseOpType : string) (config : Config)
    (* generateProcedure(file, name, typeName, model, opType, baseOpType,
       config) *)
| Permissions (shieldConfig : ShieldConfig)
    (* file.addStatements of the text
       export const permissions = shield<Context>(J);
       with J = JSON.stringify(shieldConfig, null, 2)
                  .replace(/"allow"/g, 'allow') *)
| FormatText (indentSize : nat).
    (* file.formatText({ indentSize }) *)

Abbreviation SourceFile := (list Stmt).

(** ** Collaborators outside [prisma-generator.ts] *)

(** A delegate or [getDMMF] that rejects is an error message. *)
Record Externals : Type := {
  (* configSchema.safeParse of ./config: the data on success *)
  safeParse : Js.object string -> option Config;
  (* the generators of prisma-zod-generator and
     prisma-trpc-shield-generator: [Some e] when the promise rejects *)
  PrismaZodGenerator : Options -> option string;
  PrismaTrpcShieldGenerator : Options -> option string;
  (* getDMMF({ datamodel, previewFeatures }) of @prisma/internals *)
  getDMMF : string -> list string -> string + Document;
  (* resolveModelsComments(models, hiddenModels) of ./helpers: the names
     it pushes on the empty hiddenModels *)
  resolveModelsComments : list Model -> list string;
  (* the pluralize package *)
  pluralize : string -> string;
  (* getInputTypeByOpName(baseOpType, model) of ./helpers *)
  getInputTypeByOpName : string -> string -> option string;
  (* getRelativePath(outputDir, contextPath, false, schemaPath) *)
  getRelativePath : Path -> string -> bool -> string -> string
}.

(** ** Effects *)

Inductive Event : Type :=
| Mkdir (dir : Path)
| RemoveDir (dir : Path) (onlyContent : bool)
| CallZodGenerator (options : Options)
| CallShieldGenerator (options : Options)
| CallGetDMMF (datamodel : string) (previewFeatures : list string)
| Save.

(** The module-wide ts-morph [project] and what the run did so far. *)
Record World : Type := {
  project : gmap Path SourceFile;
  trace : list Event
}.

(** A computation that reads and writes the world and may throw. *)
Definition M (A : Type) : Type := World -> (string + A) * World.

Definition ret {A} (a : A) : M A := fun w => (inr a, w).

Definition throw {A} (msg : string) : M A := fun w => (inl msg, w).

Definition bind {A B} (c : M A) (k : A -> M B) : M B :=
  fun w =>
    match c w with
    | (inl e, w') => (inl e, w')
    | (inr a, w') => k a w'
    end.

#[global] Instance M_ret : MRet M := @ret.
#[global] Instance M_bind : MBind M := fun A B k c => bind c k.

Definition emit (e : Event) : M unit :=
  fun w => (inr tt, {| project := project w; trace := trace w ++ [e] |}).

(** [await delegate(...)]: the call is made, and its rejection thrown. *)
Definition call (e : Event) (outcome : option string) : M unit :=
  emit e;;
  match outcome with
  | Some err => throw err
  | None => ret tt
  end.

Definition modify_project (f : gmap Path SourceFile -> gmap Path SourceFile)
  : M unit :=
  fun w => (inr tt, {| project := f (project w); trace := trace w |}).

(** [project.createSourceFile(p, undefined, { overwrite: true })]: the
    file at [p] starts empty, whatever the project held there. *)
Definition createSourceFile (p : Path) (proj : gmap Path SourceFile)
  : gmap Path SourceFile :=
  <[p := []]> proj.

(** An addition to the source file that the handle [p] stands for. *)
Definition add (p : Path) (s : Stmt) (proj : gmap Path SourceFile)
  : gmap Path SourceFile :=
  alter (fun f => f ++ [s]) p proj.

(** ** The generator *)

(** The line break that opens the template literals of the source. *)
Definition nl : string := String (ascii_of_nat 10) EmptyString.

Section Emission.

Variable ext : Externals.
Variable options : Options.
Variable config : Config.

Definition outputDir : Path := generator_output options.

(** The four kinds of file the run creates in the project. *)
Definition createRouter : Path :=
  outputDir ++ ["routers"; "helpers"; "createRouter.ts"].

Definition appRouter : Path := outputDir ++ ["routers"; "index.ts"].

Definition modelRouter (model : string) : Path :=
  outputDir ++ ["routers"; model +:+ ".router.ts"].

Definition shieldFile : Path := outputDir ++ ["shield"; "shield.ts"].

(** [modelActions] (lines 101-106): the declared operation kinds that the
    allow-list holds once the first ["One"] is taken out of the kind. *)
Definition modelActions (operations : Js.object (option string))
  : list string :=
  List.filter
    (fun opType =>
       Js.includes (generateModelActions config) (Js.replace "One" "" opType))
    (Js.keys operations).

(** [operations[opType] || opType] (lines 150-151). *)
Definition opNameWithModel (operations : Js.object (option string))
    (opType : string) : string :=
  match Js.get operations opType with
  | Some (Some declared) =>
      if String.eqb declared "" then opType else declared
  | _ => opType
  end.

(** The [generateProcedure] call of one resolved operation
    (lines 149-163). *)
Definition dispatch_procedure (model : string)
    (operations : Js.object (option string)) (opType : string) : Stmt :=
  let baseOpType := Js.replace "OrThrow" "" opType in
  Procedure (opNameWithModel operations opType)
    (getInputTypeByOpName ext baseOpType model)
    model opType baseOpType config.

Definition subscriptionOperations : list string :=
  ["create"; "update"; "delete"].

(** The [generateProcedure] call of one subscription (lines 167-177). *)
Definition subscription_procedure (model event : string) : Stmt :=
  Procedure event (Some "") model ("subscription:" +:+ event) event config.

(** An element of [routerStatements] (lines 183-184): the template
    [`\n      ${key}: ${router}`]. *)
Definition routerStatement (key router : string) : string :=
  nl +:+ "      " +:+ key +:+ ": " +:+ router.

(** One turn of the loop over [modelOperations] (lines 97-185), on the
    project and [routerStatements]. *)
Definition router_step (hiddenModels : list string)
    (st : gmap Path SourceFile * list string) (modelOperation : ModelMapping)
  : gmap Path SourceFile * list string :=
  let model := model modelOperation in
  let operations := operations modelOperation in
  if Js.includes hiddenModels model then st
  else
    let acts := modelActions operations in
    if Nat.eqb (List.length acts) 0 then st
    else
      let plural := pluralize ext (Js.toLowerCase model) in
      let proj := add appRouter (RouterImport plural model) (fst st) in
      let file := modelRouter model in
      let proj := createSourceFile file proj in
      let proj := add file (CreateRouterImport (Some config)) proj in
      let proj :=
        if Js.truthy (withZod config)
        then add file (RouterSchemaImports model acts) proj
        else proj in
      let proj := add file (ImportDeclaration "@prisma/client" [model]) proj in
      let proj :=
        add file (ImportDeclaration "@trpc/server/observable" ["observable"])
          proj in
      let proj :=
        add file (ImportDeclaration ("../." +:+ emitterPath config) ["ee"])
          proj in
      let proj :=
        add file
          (Statements
             (nl +:+ "      export const " +:+ plural +:+
              "Router = t.router({"))
          proj in
      let proj :=
        fold_left
          (fun proj opType =>
             add file (dispatch_procedure model operations opType) proj)
          acts proj in
      let proj :=
        fold_left
          (fun proj event => add file (subscription_procedure model event) proj)
          subscriptionOperations proj in
      let proj := add file (Statements (nl +:+ "    })")) proj in
      let proj := add file (FormatText 2) proj in
      (proj,
       snd st ++
       [routerStatement (Js.toLowerCase model) (plural +:+ "Router")]).

Definition set_query (sc : ShieldConfig) (k v : string) : ShieldConfig :=
  {| query := Js.set (query sc) k v;
     mutation := mutation sc;
     subscription := subscription sc |}.

Definition set_mutation (sc : ShieldConfig) (k v : string) : ShieldConfig :=
  {| query := query sc;
     mutation := Js.set (mutation sc) k v;
     subscription := subscription sc |}.

Definition set_subscription (sc : ShieldConfig) (k v : string)
  : ShieldConfig :=
  {| query := query sc;
     mutation := mutation sc;
     subscription := Js.set (subscription sc) k v |}.

Definition queryOperations : list string :=
  ["aggregate"; "findFirst"; "findMany"; "findUnique"; "groupBy"].

Definition mutationOperations : list string :=
  ["createOne"; "deleteMany"; "deleteOne"; "updateMany"; "updateOne";
   "upsertOne"].

(** One turn of the loop that fills [shieldConfig] (lines 211-242). *)
Definition shield_step (sc : ShieldConfig) (modelOperation : ModelMapping)
  : ShieldConfig :=
  let model := model modelOperation in
  let sc :=
    fold_left (fun sc op => set_query sc (op +:+ model) "allow")
      queryOperations sc in
  let sc :=
    fold_left (fun sc op => set_mutation sc (op +:+ model) "allow")
      mutationOperations sc in
  fold_left (fun sc op => set_subscription sc (op +:+ model) "allow")
    subscriptionOperations sc.

Definition empty_shieldConfig : ShieldConfig :=
  {| query := []; mutation := []; subscription := [] |}.

(** [shieldConfig] once the loop is over. *)
Definition shieldConfig (modelOperations : list ModelMapping) : ShieldConfig :=
  fold_left shield_step modelOperations empty_shieldConfig.

(** The policy file (lines 188-253). *)
Definition emit_shield (modelOperations : list ModelMapping)
    (proj : gmap Path SourceFile) : gmap Path SourceFile :=
  let proj := createSourceFile shieldFile proj in
  let proj :=
    add shieldFile
      (Statements
         (nl +:+ "    import { shield, allow } from 'trpc-shield';" +:+
          nl +:+ "    import { Context } from '" +:+
          getRelativePath ext outputDir (contextPath config) false
            (schemaPath options) +:+
          "';" +:+ nl +:+ "    "))
      proj in
  let proj :=
    add shieldFile (Permissions (shieldConfig modelOperations)) proj in
  add shieldFile (FormatText 2) proj.

(** The text of the aggregate router (lines 255-257); an array in a
    template literal is joined with commas. *)
Definition appRouter_text (routerStatements : list string) : string :=
  nl +:+ "    export const appRouter = t.router({" +:+
  Js.join "," routerStatements +:+ "})" +:+ nl +:+ "    ".

(** Lines 64-259: everything the run puts in the project. *)
Definition emit_files (dmmf : Document) (proj : gmap Path SourceFile)
  : gmap Path SourceFile :=
  let hiddenModels := resolveModelsComments ext (models dmmf) in
  let proj := createSourceFile createRouter proj in
  let proj := add createRouter TRPCImport proj in
  let proj :=
    if Js.truthy (withShield config)
    then add createRouter (ShieldImport options (withShield config)) proj
    else proj in
  let proj := add createRouter (BaseRouter config options) proj in
  let proj := add createRouter (FormatText 2) proj in
  let proj := createSourceFile appRouter proj in
  let proj := add appRouter (CreateRouterImport None) proj in
  let st :=
    fold_left (router_step hiddenModels) (modelOperations dmmf) (proj, []) in
  let proj :=
    if Js.truthy (withShield config)
    then emit_shield (modelOperations dmmf) (fst st)
    else fst st in
  let proj := add appRouter (Statements (appRouter_text (snd st))) proj in
  add appRouter (FormatText 2) proj.

(** ** What a run leaves in the project

    The four kinds of file in closed form; the lemmas on [emit_files]
    further down show that the run leaves exactly these. *)

(** The entities the loop does not skip (lines 99 and 108). *)
Definition generated (hiddenModels : list string) (mo : ModelMapping)
  : bool :=
  negb (Js.includes hiddenModels (model mo))
  && negb (Nat.eqb (List.length (modelActions (operations mo))) 0).

(** The router file of an entity, as the loop leaves it. *)
Definition router_file (mo : ModelMapping) : SourceFile :=
  let acts := modelActions (operations mo) in
  let plural := pluralize ext (Js.toLowerCase (model mo)) in
  [CreateRouterImport (Some config)] ++
  (if Js.truthy (withZod config)
   then [RouterSchemaImports (model mo) acts] else []) ++
  [ImportDeclaration "@prisma/client" [model mo];
   ImportDeclaration "@trpc/server/observable" ["observable"];
   ImportDeclaration ("../." +:+ emitterPath config) ["ee"];
   Statements
     (nl +:+ "      export const " +:+ plural +:+ "Router = t.router({")] ++
  map (dispatch_procedure (model mo) (operations mo)) acts ++
  map (subscription_procedure (model mo)) subscriptionOperations ++
  [Statements (nl +:+ "    })"); FormatText 2].

(** The import of the entity's router in the aggregate file. *)
Definition router_import (mo : ModelMapping) : Stmt :=
  RouterImport (pluralize ext (Js.toLowerCase (model mo))) (model mo).

(** The entity's element of [routerStatements]. *)
Definition router_entry (mo : ModelMapping) : string :=
  routerStatement (Js.toLowerCase (model mo))
    (pluralize ext (Js.toLowerCase (model mo)) +:+ "Router").

(** The entities that get a router, in the order of the mapping table. *)
Definition generated_entities (dmmf : Document) : list ModelMapping :=
  List.filter (generated (resolveModelsComments ext (models dmmf)))
    (modelOperations dmmf).

(** The bootstrap file (lines 68-83). *)
Definition bootstrap_file : SourceFile :=
  [TRPCImport] ++
  (if Js.truthy (withShield config)
   then [ShieldImport options (withShield config)] else []) ++
  [BaseRouter config options; FormatText 2].

(** The aggregate router (lines 85-93, 112, 183-184 and 255-259). *)
Definition aggregate_file (dmmf : Document) : SourceFile :=
  [CreateRouterImport None] ++
  map router_import (generated_entities dmmf) ++
  [Statements (appRouter_text (map router_entry (generated_entities dmmf)));
   FormatText 2].

(** The policy file (lines 189-252). *)
Definition shield_file (dmmf : Document) : SourceFile :=
  [Statements
     (nl +:+ "    import { shield, allow } from 'trpc-shield';" +:+
      nl +:+ "    import { Context } from '" +:+
      getRelativePath ext outputDir (contextPath config) false
        (schemaPath options) +:+
      "';" +:+ nl +:+ "    ");
   Permissions (shieldConfig (modelOperations dmmf));
   FormatText 2].

(** The project before the loop over the entities. *)
Definition before_loop (proj : gmap Path SourceFile)
  : gmap Path SourceFile :=
  <[appRouter := [CreateRouterImport None]]>
    (<[createRouter := bootstrap_file]> proj).

(** The project once the loop is over and the policy file written. *)
Definition after_shield (dmmf : Document) (proj : gmap Path SourceFile)
  : gmap Path SourceFile :=
  let st :=
    fold_left (router_step (resolveModelsComments ext (models dmmf)))
      (modelOperations dmmf) (before_loop proj, []) in
  if Js.truthy (withShield config)
  then <[shieldFile := shield_file dmmf]> (fst st)
  else fst st.

End Emission.

(** The options handed to the policy-starter delegate (lines 38-52). *)
Definition shield_options (options : Options) (config : Config) : Options :=
  {| generator_output := generator_output options ++ ["shield"];
     generator_config :=
       Js.set (generator_config options) "contextPath" (contextPath config);
     otherGenerators := otherGenerators options;
     datamodel := datamodel options;
     schemaPath := schemaPath options |}.

(** [prismaClientProvider] (lines 55-57): [undefined] is [None]. *)
Definition prismaClientProvider (options : Options) : option GeneratorConfig :=
  List.find (fun it => String.eqb (provider it) "prisma-client-js")
    (otherGenerators options).

(** [generate(options)].  Reading [previewFeatures] of an undefined
    provider throws before [getDMMF] is called. *)
Definition generate (ext : Externals) (options : Options) : M unit :=
  let outputDir := generator_output options in
  match safeParse ext (generator_config options) with
  | None => throw "Invalid options passed"
  | Some config =>
      emit (Mkdir outputDir);;
      emit (RemoveDir outputDir true);;
      (if Js.truthy (withZod config)
       then call (CallZodGenerator options) (PrismaZodGenerator ext options)
       else mret tt);;
      (if Js.is_true (withShield config)
       then
         let options' := shield_options options config in
         call (CallShieldGenerator options')
           (PrismaTrpcShieldGenerator ext options')
       else mret tt);;
      match prismaClientProvider options with
      | None =>
          throw
            "Cannot read properties of undefined (reading 'previewFeatures')"
      | Some prismaClientProvider =>
          let previewFeatures := previewFeatures prismaClientProvider in
          emit (CallGetDMMF (datamodel options) previewFeatures);;
          match getDMMF ext (datamodel options) previewFeatures with
          | inl err => throw err
          | inr prismaClientDmmf =>
              modify_project (emit_files ext options config prismaClientDmmf);;
              emit Save
          end
      end
  end.

(** ** The whole run, described *)

Definition empty_world : World := {| project := ∅; trace := [] |}.

(** A computation is framed when running it from any world is running it
    from the empty world and laying the outcome over that world: the
    result, the events and the files written do not depend on it. *)
Definition framed {A} (c : M A) : Prop :=
  forall w,
    c w = (fst (c empty_world),
           {| project := project (snd (c empty_world)) ∪ project w;
              trace := trace w ++ trace (snd (c empty_world)) |}).

(** The conditions under which no collaborator fails: the configuration
    parses to [config], the delegates that are called do not reject, a
    client generator is declared and [getDMMF] resolves to [dmmf]. *)
Definition succeeds (ext : Externals) (options : Options) (config : Config)
    (dmmf : Document) : Prop :=
  safeParse ext (generator_config options) = Some config
  /\ (Js.truthy (withZod config) = true ->
      PrismaZodGenerator ext options = None)
  /\ (Js.is_true (withShield config) = true ->
      PrismaTrpcShieldGenerator ext (shield_options options config) = None)
  /\ exists prov,
       prismaClientProvider options = Some prov
       /\ getDMMF ext (datamodel options) (previewFeatures prov) = inr dmmf.

(** The events of a run in which no collaborator fails. *)
Definition run_events (options : Options) (config : Config) : list Event :=
  [Mkdir (generator_output options);
   RemoveDir (generator_output options) true] ++
  (if Js.truthy (withZod config) then [CallZodGenerator options] else []) ++
  (if Js.is_true (withShield config)
   then [CallShieldGenerator (shield_options options config)] else []) ++
  [CallGetDMMF (datamodel options)
     (default [] (previewFeatures <$> prismaClientProvider options));
   Save].

(** [k] is one of [ops] suffixed with the name of one of [mos]. *)
Definition entry_of (ops : list string) (mos : list ModelMapping)
    (k : string) : bool :=
  existsb (fun mo => existsb (fun op => String.eqb (op +:+ model mo) k) ops)
    mos.

(** A [generateProcedure] call. *)
Definition is_procedure (s : Stmt) : bool :=
  match s with
  | Procedure _ _ _ _ _ _ => true
  | _ => false
  end.

(** The entries of a bucket of the permission matrix, entity by entity in
    the order of the mapping table: each of [ops] suffixed with the entity
    name and mapped to ["allow"]. *)
Definition bucket_entries (ops : list string) (mos : list ModelMapping)
  : Js.object string :=
  flat_map (fun mo => map (fun op => (op +:+ model mo, "allow")) ops) mos.

(** No two of [ops], suffixed with entity names, spell the same key unless
    they are the same operation suffixed with the same name. *)
Definition unambiguous (ops : list string) : Prop :=
  forall op op' m m',
    In op ops -> In op' ops -> op +:+ m = op' +:+ m' -> op = op' /\ m = m'.

(** ** A sample run *)

Module Sample.

(** The pluralize package on the words used below: two irregular plurals
    and the regular suffix. *)
Definition plural_of (word : string) : string :=
  if String.eqb word "person" then "people"
  else if String.eqb word "category" then "categories"
  else word +:+ "s".

(** [arg.split(',')] *)
Fixpoint split_commas (acc arg : string) : list string :=
  match arg with
  | EmptyString => [acc]
  | String c rest =>
      if Ascii.eqb c ","%char then acc :: split_commas "" rest
      else split_commas (acc +:+ String c "") rest
  end.

(** A configuration schema: [withShield] is ['true'], ['false'] or a path,
    [generateModelActions] a comma-separated list, both required. *)
Definition parse (raw : Js.object string) : option Config :=
  match Js.get raw "withShield", Js.get raw "generateModelActions" with
  | Some shield, Some actions =>
      Some {| withZod := Js.VBool false;
              withShield :=
                if String.eqb shield "true" then Js.VBool true
                else if String.eqb shield "false" then Js.VBool false
                else Js.VString shield;
              contextPath := "../src/context";
              generateModelActions := split_commas "" actions;
              emitterPath := "./src/emitter" |}
  | _, _ => None
  end.

Definition mapping (model : string) : ModelMapping :=
  {| model := model;
     operations :=
       [("findUniqueOrThrow", Some ("findUnique" +:+ model +:+ "OrThrow"));
        ("findMany", Some ("findMany" +:+ model));
        ("createOne", Some ("createOne" +:+ model));
        ("count", None)] |}.

(** A schema of three entities; [Secret] carries the hide marker. *)
Definition document : Document :=
  {| modelOperations := [mapping "Person"; mapping "Secret"; mapping "Order"];
     models :=
       [{| name := "Person"; documentation := None |};
        {| name := "Secret";
           documentation := Some "@@Gen.model(hide: true)" |};
        {| name := "Order"; documentation := None |}] |}.

Definition marked (m : Model) : bool :=
  match documentation m with
  | Some _ => true
  | None => false
  end.

Definition ext : Externals :=
  Build_Externals
    parse
    (fun _ => None)
    (fun _ => None)
    (fun _ _ => inr document)
    (fun ms => map name (List.filter marked ms))
    plural_of
    (fun op m => Some (m +:+ "_" +:+ op +:+ "Schema"))
    (fun _ contextPath _ _ => contextPath).

Definition options (raw : Js.object string) : Options :=
  {| generator_output := ["/app"; "generated"];
     generator_config := raw;
     otherGenerators :=
       [{| provider := "prisma-client-js"; previewFeatures := [] |}];
     datamodel := "model Person {} model Secret {} model Order {}";
     schemaPath := "/app/prisma/schema.prisma" |}.

Definition raw (shield actions : string) : Js.object string :=
  [("withShield", shield); ("generateModelActions", actions)].

Definition config (shield actions : string) : Config :=
  {| withZod := Js.VBool false;
     withShield :=
       if String.eqb shield "true" then Js.VBool true
       else if String.eqb shield "false" then Js.VBool false
       else Js.VString shield;
     contextPath := "../src/context";
     generateModelActions := split_commas "" actions;
     emitterPath := "./src/emitter" |}.

End Sample.

(** ** Runs that fail *)

Module Faulty.

(** A configuration with both delegates on. *)
Definition config : Config :=
  {| withZod := Js.VBool true;
     withShield := Js.VBool true;
     contextPath := "../src/context";
     generateModelActions := ["findMany"];
     emitterPath := "./src/emitter" |}.

(** Collaborators whose delegates and [getDMMF] end as told. *)
Definition ext (zod shield : option string) (dmmf : string + Document)
  : Externals :=
  Build_Externals
    (fun _ => Some config)
    (fun _ => zod)
    (fun _ => shield)
    (fun _ _ => dmmf)
    (fun ms => map name (List.filter Sample.marked ms))
    Sample.plural_of
    (fun _ _ => None)
    (fun _ contextPath _ _ => contextPath).

(** Options of a schema that declares no client generator. *)
Definition options_without_client : Options :=
  {| generator_output := ["/app"; "generated"];
     generator_config := [("contextPath", "./ctx"); ("withZod", "true")];
     otherGenerators :=
       [{| provider := "prisma-erd-generator"; previewFeatures := [] |}];
     datamodel := "model Person {}";
     schemaPath := "/app/prisma/schema.prisma" |}.

End Faulty.

(** ** The model at work *)

Example replace_createOne : Js.replace "One" "" "createOne" = "create".
Proof. reflexivity. Qed.

Example replace_findUniqueOrThrow :
  Js.replace "One" "" "findUniqueOrThrow" = "findUniqueOrThrow".
Proof. reflexivity. Qed.

Example replace_OrThrow :
  Js.replace "OrThrow" "" "findUniqueOrThrow" = "findUnique".
Proof. reflexivity. Qed.

Example replace_first_only : Js.replace "One" "" "OneOne" = "One".
Proof. reflexivity. Qed.

Example toLowerCase_Person : Js.toLowerCase "Person" = "person".
Proof. reflexivity. Qed.

Example sample_parse :
  Sample.parse (Sample.raw "true" "findMany,create")
  = Some (Sample.config "true" "findMany,create").
Proof. reflexivity. Qed.

Example sample_actions :
  generateModelActions (Sample.config "true" "findMany,create")
  = ["findMany"; "create"].
Proof. reflexivity. Qed.

(** ** Strings, objects and arrays *)

Lemma length_append (s t : string) :
  String.length (s +:+ t) = String.length s + String.length t.
Proof.
  induction s as [|c s IH]; simpl; [reflexivity | now rewrite IH].
Qed.

(** A suffix can be cancelled: two entities with the same router file
    name have the same name. *)
Lemma append_inj_l (s a b : string) : a +:+ s = b +:+ s -> a = b.
Proof.
  revert b; induction a as [|c a IH]; intros [|d b] H.
  - reflexivity.
  - apply (f_equal String.length) in H.
    rewrite !length_append in H. simpl in H. lia.
  - apply (f_equal String.length) in H.
    rewrite !length_append in H. simpl in H. lia.
  - change (String c (a +:+ s) = String d (b +:+ s)) in H.
    injection H as -> H. f_equal. now apply IH.
Qed.

Lemma includes_In (arr : list string) (x : string) :
  Js.includes arr x = true <-> In x arr.
Proof.
  unfold Js.includes. rewrite existsb_exists. split.
  - intros (y & Hy & Heq). apply String.eqb_eq in Heq. now subst.
  - intros Hin. exists x. split; [assumption | apply String.eqb_refl].
Qed.

Lemma get_set {V} (o : Js.object V) (k k' : string) (v : V) :
  Js.get (Js.set o k v) k'
  = if String.eqb k k' then Some v else Js.get o k'.
Proof.
  induction o as [|[k0 v0] o IH]; simpl.
  - reflexivity.
  - destruct (String.eqb k0 k) eqn:E0; simpl.
    + apply String.eqb_eq in E0; subst k0.
      now destruct (String.eqb k k').
    + destruct (String.eqb k0 k') eqn:E1; [|exact IH].
      apply String.eqb_eq in E1; subst k0.
      now rewrite String.eqb_sym, E0.
Qed.

Lemma get_In_keys {V} (o : Js.object V) (k : string) :
  In k (Js.keys o) -> exists v, Js.get o k = Some v.
Proof.
  induction o as [|[k0 v0] o IH]; simpl; [tauto|].
  intros [->|Hin].
  - rewrite String.eqb_refl. eauto.
  - destruct (String.eqb k0 k); eauto.
Qed.

(** ** The project *)

Section ProjectLemmas.

Implicit Types (p q : Path) (s : Stmt) (f : SourceFile).
Implicit Types (proj G P : gmap Path SourceFile).

Lemma add_insert p s f proj :
  add p s (<[p := f]> proj) = <[p := f ++ [s]]> proj.
Proof. exact (alter_insert_eq proj p (fun f => f ++ [s]) f). Qed.

Lemma lookup_add_ne p q s proj : p <> q -> add p s proj !! q = proj !! q.
Proof. intros H. unfold add. now apply lookup_alter_ne. Qed.

Lemma lookup_add_eq p s proj :
  add p s proj !! p = (fun f => f ++ [s]) <$> proj !! p.
Proof. unfold add. apply lookup_alter_eq. Qed.

Lemma add_is_Some p q s proj :
  is_Some (proj !! q) -> is_Some (add p s proj !! q).
Proof. intros H. unfold add. now apply lookup_alter_is_Some. Qed.

Lemma fold_add_insert {A} (g : A -> Stmt) (l : list A) p f proj :
  fold_left (fun proj x => add p (g x) proj) l (<[p := f]> proj)
  = <[p := f ++ map g l]> proj.
Proof.
  revert f; induction l as [|x l IH]; intros f; simpl.
  - now rewrite app_nil_r.
  - rewrite add_insert, IH, <- app_assoc. reflexivity.
Qed.

(** Adding to a file the run created is blind to what the project held
    before the run. *)
Lemma add_union p s G P :
  is_Some (G !! p) -> add p s (G ∪ P) = add p s G ∪ P.
Proof.
  intros [f Hf]. apply map_eq; intros q.
  destruct (decide (p = q)) as [<-|Hne].
  - rewrite lookup_add_eq, !lookup_union, lookup_add_eq, Hf.
    destruct (P !! p); reflexivity.
  - rewrite lookup_add_ne, !lookup_union, lookup_add_ne by assumption.
    reflexivity.
Qed.

End ProjectLemmas.

(** ** The files of a run do not collide *)

Section Paths.

Variable options : Options.

Lemma modelRouter_inj (m m' : string) :
  modelRouter options m = modelRouter options m' -> m = m'.
Proof.
  unfold modelRouter. intros H. apply app_inv_head in H.
  injection H as H. now apply append_inj_l in H.
Qed.

Lemma modelRouter_appRouter (m : string) :
  modelRouter options m <> appRouter options.
Proof.
  unfold modelRouter, appRouter. intros H. apply app_inv_head in H.
  injection H as H. apply (f_equal String.length) in H.
  rewrite length_append in H. simpl in H. lia.
Qed.

Lemma modelRouter_createRouter (m : string) :
  modelRouter options m <> createRouter options.
Proof.
  unfold modelRouter, createRouter. intros H. apply app_inv_head in H.
  discriminate H.
Qed.

Lemma modelRouter_shieldFile (m : string) :
  modelRouter options m <> shieldFile options.
Proof.
  unfold modelRouter, shieldFile. intros H. apply app_inv_head in H.
  discriminate H.
Qed.

Lemma appRouter_createRouter : appRouter options <> createRouter options.
Proof.
  unfold appRouter, createRouter. intros H. apply app_inv_head in H.
  discriminate H.
Qed.

Lemma appRouter_shieldFile : appRouter options <> shieldFile options.
Proof.
  unfold appRouter, shieldFile. intros H. apply app_inv_head in H.
  discriminate H.
Qed.

Lemma createRouter_shieldFile : createRouter options <> shieldFile options.
Proof.
  unfold createRouter, shieldFile. intros H. apply app_inv_head in H.
  discriminate H.
Qed.

End Paths.

(** ** The loop over the entities *)

Section RouterLoop.

Variable ext : Externals.
Variable options : Options.
Variable config : Config.
Variable hiddenModels : list string.

Implicit Types (mo : ModelMapping) (mos : list ModelMapping).
Implicit Types (proj G P : gmap Path SourceFile) (rs : list string).

Lemma router_step_skip st mo :
  generated config hiddenModels mo = false ->
  router_step ext options config hiddenModels st mo = st.
Proof.
  unfold generated, router_step. intros H.
  destruct (Js.includes hiddenModels (model mo)); [reflexivity|].
  destruct (Nat.eqb _ 0); [reflexivity | discriminate H].
Qed.

Lemma router_step_emit st mo :
  generated config hiddenModels mo = true ->
  router_step ext options config hiddenModels st mo
  = (<[modelRouter options (model mo) := router_file ext config mo]>
       (add (appRouter options) (router_import ext mo) (fst st)),
     snd st ++ [router_entry ext mo]).
Proof.
  unfold generated, router_step. intros H.
  destruct (Js.includes hiddenModels (model mo)); [discriminate H|].
  destruct (Nat.eqb _ 0); [discriminate H|].
  f_equal. unfold createSourceFile, router_file.
  rewrite add_insert.
  destruct (Js.truthy (withZod config)).
  - rewrite !add_insert, !fold_add_insert, !add_insert.
    f_equal. simpl. rewrite <- !app_assoc. reflexivity.
  - rewrite !add_insert, !fold_add_insert, !add_insert.
    f_equal. simpl. rewrite <- !app_assoc. reflexivity.
Qed.

Abbreviation router_loop :=
  (fold_left (router_step ext options config hiddenModels)).

(** [routerStatements] after the loop: one element per generated entity,
    in the order of the mapping table. *)
Lemma router_loop_statements mos st :
  snd (router_loop mos st)
  = snd st ++
    map (router_entry ext) (List.filter (generated config hiddenModels) mos).
Proof.
  revert st; induction mos as [|mo mos IH]; intros st; simpl.
  - now rewrite app_nil_r.
  - rewrite IH. destruct (generated config hiddenModels mo) eqn:E.
    + rewrite router_step_emit by assumption. simpl.
      now rewrite <- app_assoc.
    + now rewrite router_step_skip.
Qed.

(** The aggregate file gains one import per generated entity. *)
Lemma router_loop_appRouter mos st :
  fst (router_loop mos st) !! appRouter options
  = (fun f =>
       f ++
       map (router_import ext)
         (List.filter (generated config hiddenModels) mos))
      <$> fst st !! appRouter options.
Proof.
  revert st; induction mos as [|mo mos IH]; intros st; simpl.
  - destruct (fst st !! appRouter options); simpl; [|reflexivity].
    now rewrite app_nil_r.
  - rewrite IH. destruct (generated config hiddenModels mo) eqn:E.
    + rewrite router_step_emit by assumption. simpl.
      rewrite lookup_insert_ne by apply modelRouter_appRouter.
      rewrite lookup_add_eq.
      destruct (fst st !! appRouter options); simpl; [|reflexivity].
      now rewrite <- app_assoc.
    + now rewrite router_step_skip.
Qed.

(** A path that is neither the aggregate file nor the router file of a
    generated entity is left alone. *)
Lemma router_loop_other mos st (p : Path) :
  p <> appRouter options ->
  (forall mo,
     In mo mos -> generated config hiddenModels mo = true ->
     modelRouter options (model mo) <> p) ->
  fst (router_loop mos st) !! p = fst st !! p.
Proof.
  intros Hp. revert st; induction mos as [|mo mos IH]; intros st Hmos; simpl.
  - reflexivity.
  - rewrite IH by (intros; apply Hmos; simpl; auto).
    destruct (generated config hiddenModels mo) eqn:E.
    + rewrite router_step_emit by assumption. simpl.
      rewrite lookup_insert_ne by (apply Hmos; simpl; auto).
      now rewrite lookup_add_ne.
    + now rewrite router_step_skip.
Qed.

(** With entity names unique, the router file of a generated entity is
    the one its own turn wrote. *)
Lemma router_loop_model mos st mo :
  NoDup (map model mos) -> In mo mos ->
  generated config hiddenModels mo = true ->
  fst (router_loop mos st) !! modelRouter options (model mo)
  = Some (router_file ext config mo).
Proof.
  revert st; induction mos as [|mo' mos IH]; intros st Hnd Hin Hgen.
  - destruct Hin.
  - simpl. apply NoDup_cons in Hnd as [Hfresh Hnd].
    destruct Hin as [->|Hin].
    + rewrite router_loop_other.
      * rewrite router_step_emit by assumption. simpl.
        apply lookup_insert_eq.
      * apply modelRouter_appRouter.
      * intros mo2 Hin2 _ Heq. apply modelRouter_inj in Heq.
        apply Hfresh. rewrite <- Heq. apply list_elem_of_In.
        now apply in_map.
    + now apply IH.
Qed.

(** The loop is blind to what the project held before the run. *)
Lemma router_loop_union mos G P rs :
  is_Some (G !! appRouter options) ->
  router_loop mos (G ∪ P, rs)
  = (fst (router_loop mos (G, rs)) ∪ P, snd (router_loop mos (G, rs)))
  /\ is_Some (fst (router_loop mos (G, rs)) !! appRouter options).
Proof.
  revert G rs; induction mos as [|mo mos IH]; intros G rs HG; simpl.
  - auto.
  - destruct (generated config hiddenModels mo) eqn:E.
    + rewrite !router_step_emit by assumption. simpl.
      rewrite add_union by assumption.
      rewrite insert_union_l. apply IH.
      rewrite lookup_insert_ne by apply modelRouter_appRouter.
      now apply add_is_Some.
    + rewrite !router_step_skip by assumption. now apply IH.
Qed.

End RouterLoop.

(** ** The files of a run *)

Section Files.

Variable ext : Externals.
Variable options : Options.
Variable config : Config.
Variable dmmf : Document.

Implicit Types (mo : ModelMapping) (proj G P : gmap Path SourceFile).

Abbreviation hiddenModels := (resolveModelsComments ext (models dmmf)).

Lemma emit_shield_eq proj :
  emit_shield ext options config (modelOperations dmmf) proj
  = <[shieldFile options := (shield_file ext options config dmmf)]> proj.
Proof.
  unfold emit_shield, createSourceFile. now rewrite !add_insert.
Qed.

Lemma emit_files_eq proj :
  emit_files ext options config dmmf proj
  = add (appRouter options) (FormatText 2)
      (add (appRouter options)
         (Statements
            (appRouter_text
               (map (router_entry ext) (generated_entities ext config dmmf))))
         (after_shield ext options config dmmf proj)).
Proof.
  unfold emit_files, after_shield, before_loop, createSourceFile.
  rewrite router_loop_statements. simpl.
  assert (Hboot :
    add (createRouter options) (FormatText 2)
      (add (createRouter options) (BaseRouter config options)
         (if Js.truthy (withShield config)
          then add (createRouter options)
                 (ShieldImport options (withShield config))
                 (add (createRouter options) TRPCImport
                    (<[createRouter options := []]> proj))
          else add (createRouter options) TRPCImport
                 (<[createRouter options := []]> proj)))
    = <[createRouter options := (bootstrap_file options config)]> proj).
  { unfold bootstrap_file.
    destruct (Js.truthy (withShield config)); now rewrite !add_insert. }
  rewrite Hboot, add_insert. simpl.
  destruct (Js.truthy (withShield config)); [|reflexivity].
  now rewrite emit_shield_eq.
Qed.

Lemma after_shield_appRouter proj :
  after_shield ext options config dmmf proj !! appRouter options
  = Some ([CreateRouterImport None] ++
          map (router_import ext) (generated_entities ext config dmmf)).
Proof.
  unfold after_shield.
  assert (H :
    fst (fold_left (router_step ext options config hiddenModels)
           (modelOperations dmmf) (before_loop options config proj, []))
      !! appRouter options
    = Some ([CreateRouterImport None] ++
            map (router_import ext) (generated_entities ext config dmmf))).
  { rewrite router_loop_appRouter. unfold before_loop. simpl.
    now rewrite lookup_insert_eq. }
  destruct (Js.truthy (withShield config)); [|exact H].
  rewrite lookup_insert_ne; [exact H|].
  intros Heq. symmetry in Heq. now apply appRouter_shieldFile in Heq.
Qed.

(** The aggregate router after the run. *)
Lemma emit_files_appRouter proj :
  emit_files ext options config dmmf proj !! appRouter options
  = Some (aggregate_file ext config dmmf).
Proof.
  rewrite emit_files_eq, !lookup_add_eq, after_shield_appRouter. simpl.
  unfold aggregate_file. simpl. now rewrite <- !app_assoc.
Qed.

(** What the run does to any other path is what [after_shield] did. *)
Lemma emit_files_other proj (p : Path) :
  p <> appRouter options ->
  emit_files ext options config dmmf proj !! p
  = after_shield ext options config dmmf proj !! p.
Proof.
  intros Hp. rewrite emit_files_eq, !lookup_add_ne; auto.
Qed.

(** The bootstrap file after the run. *)
Lemma emit_files_createRouter proj :
  emit_files ext options config dmmf proj !! createRouter options
  = Some (bootstrap_file options config).
Proof.
  rewrite emit_files_other.
  2:{ intros H. symmetry in H. now apply appRouter_createRouter in H. }
  unfold after_shield.
  assert (H :
    fst (fold_left (router_step ext options config hiddenModels)
           (modelOperations dmmf) (before_loop options config proj, []))
      !! createRouter options
    = Some (bootstrap_file options config)).
  { rewrite router_loop_other.
    - unfold before_loop. simpl.
      rewrite lookup_insert_ne by apply appRouter_createRouter.
      apply lookup_insert_eq.
    - intros H. symmetry in H. now apply appRouter_createRouter in H.
    - intros mo _ _. apply modelRouter_createRouter. }
  destruct (Js.truthy (withShield config)); [|exact H].
  rewrite lookup_insert_ne; [exact H|].
  intros Heq. symmetry in Heq. now apply createRouter_shieldFile in Heq.
Qed.

(** The policy file after the run, when policy generation is on. *)
Lemma emit_files_shieldFile proj :
  Js.truthy (withShield config) = true ->
  emit_files ext options config dmmf proj !! shieldFile options
  = Some (shield_file ext options config dmmf).
Proof.
  intros Hs. rewrite emit_files_other.
  2:{ intros H. symmetry in H. now apply appRouter_shieldFile in H. }
  unfold after_shield. rewrite Hs. apply lookup_insert_eq.
Qed.

(** The router file of a generated entity after the run. *)
Lemma emit_files_modelRouter proj mo :
  NoDup (map model (modelOperations dmmf)) ->
  In mo (modelOperations dmmf) ->
  generated config hiddenModels mo = true ->
  emit_files ext options config dmmf proj !! modelRouter options (model mo)
  = Some (router_file ext config mo).
Proof.
  intros Hnd Hin Hgen.
  rewrite emit_files_other by apply modelRouter_appRouter.
  unfold after_shield.
  assert (H :
    fst (fold_left (router_step ext options config hiddenModels)
           (modelOperations dmmf) (before_loop options config proj, []))
      !! modelRouter options (model mo)
    = Some (router_file ext config mo)) by now apply router_loop_model.
  destruct (Js.truthy (withShield config)); [|exact H].
  rewrite lookup_insert_ne; [exact H|].
  intros Heq. symmetry in Heq. now apply modelRouter_shieldFile in Heq.
Qed.

(** The router path of a name with no generated entity is not touched. *)
Lemma emit_files_no_modelRouter proj (m : string) :
  (forall mo, In mo (generated_entities ext config dmmf) -> model mo <> m) ->
  emit_files ext options config dmmf proj !! modelRouter options m
  = proj !! modelRouter options m.
Proof.
  intros Hm.
  rewrite emit_files_other by apply modelRouter_appRouter.
  unfold after_shield.
  assert (H :
    fst (fold_left (router_step ext options config hiddenModels)
           (modelOperations dmmf) (before_loop options config proj, []))
      !! modelRouter options m
    = proj !! modelRouter options m).
  { rewrite router_loop_other.
    - unfold before_loop. simpl.
      rewrite lookup_insert_ne.
      2:{ intros H. symmetry in H. now apply modelRouter_appRouter in H. }
      rewrite lookup_insert_ne; [reflexivity|].
      intros H. symmetry in H. now apply modelRouter_createRouter in H.
    - apply modelRouter_appRouter.
    - intros mo Hin Hgen Heq. apply modelRouter_inj in Heq.
      apply (Hm mo); [|assumption].
      unfold generated_entities. apply filter_In. auto. }
  destruct (Js.truthy (withShield config)); [|exact H].
  rewrite lookup_insert_ne; [exact H|].
  intros Heq. symmetry in Heq. now apply modelRouter_shieldFile in Heq.
Qed.

(** The files of a run are the same whatever the project held: the run
    lays them over it. *)
Lemma emit_files_union P :
  emit_files ext options config dmmf P
  = emit_files ext options config dmmf ∅ ∪ P.
Proof.
  assert (Hafter :
    after_shield ext options config dmmf P
    = after_shield ext options config dmmf ∅ ∪ P
    /\ is_Some
         (after_shield ext options config dmmf ∅ !! appRouter options)).
  { split; [|rewrite after_shield_appRouter; eauto].
    unfold after_shield.
    assert (Hb :
      before_loop options config P = before_loop options config ∅ ∪ P).
    { unfold before_loop.
      now rewrite <- !insert_union_l, (left_id_L ∅ (∪)). }
    rewrite Hb.
    destruct (router_loop_union ext options config hiddenModels
                (modelOperations dmmf) (before_loop options config ∅) P [])
      as [-> _].
    { unfold before_loop. rewrite lookup_insert_eq. eauto. }
    simpl. destruct (Js.truthy (withShield config)); [|reflexivity].
    now rewrite insert_union_l. }
  destruct Hafter as [Heq Hsome].
  rewrite !emit_files_eq, Heq.
  rewrite add_union by assumption.
  rewrite add_union by now apply add_is_Some.
  reflexivity.
Qed.

End Files.

(** ** The whole run *)

Lemma framed_ret {A} (a : A) : framed (mret a : M A).
Proof.
  intros [P t]. unfold mret, M_ret, ret. simpl.
  now rewrite (left_id_L ∅ (∪)), app_nil_r.
Qed.

Lemma framed_throw {A} (msg : string) : framed (throw msg : M A).
Proof.
  intros [P t]. unfold throw. simpl.
  now rewrite (left_id_L ∅ (∪)), app_nil_r.
Qed.

Lemma framed_emit (e : Event) : framed (emit e).
Proof.
  intros [P t]. unfold emit. simpl. now rewrite (left_id_L ∅ (∪)).
Qed.

Lemma framed_bind {A B} (c : M A) (k : A -> M B) :
  framed c -> (forall a, framed (k a)) -> framed (c ≫= k).
Proof.
  intros Hc Hk w. unfold mbind, M_bind, bind.
  rewrite (Hc w). destruct (c empty_world) as [[e|a] [G1 t1]]; simpl.
  - reflexivity.
  - rewrite (Hk a). rewrite (Hk a {| project := G1; trace := t1 |}). simpl.
    now rewrite (assoc_L (∪)), app_assoc.
Qed.

Lemma framed_call (e : Event) (outcome : option string) :
  framed (call e outcome).
Proof.
  unfold call. apply framed_bind; [apply framed_emit|].
  intros _. destruct outcome; [apply framed_throw | apply framed_ret].
Qed.

Lemma framed_emit_files ext options config dmmf :
  framed (modify_project (emit_files ext options config dmmf)).
Proof.
  intros [P t]. unfold modify_project. simpl.
  now rewrite app_nil_r, <- emit_files_union.
Qed.

(** The run is framed. *)
Lemma framed_generate ext options : framed (generate ext options).
Proof.
  unfold generate.
  destruct (safeParse ext (generator_config options)) as [config|];
    [|apply framed_throw].
  apply framed_bind; [apply framed_emit | intros _].
  apply framed_bind; [apply framed_emit | intros _].
  apply framed_bind.
  { destruct (Js.truthy (withZod config));
      [apply framed_call | apply framed_ret]. }
  intros _. apply framed_bind.
  { destruct (Js.is_true (withShield config));
      [apply framed_call | apply framed_ret]. }
  intros _.
  destruct (prismaClientProvider options) as [prov|]; [|apply framed_throw].
  apply framed_bind; [apply framed_emit | intros _].
  destruct (getDMMF ext (datamodel options) (previewFeatures prov));
    [apply framed_throw|].
  apply framed_bind; [apply framed_emit_files | intros _].
  apply framed_emit.
Qed.

(** When no collaborator fails the run returns, leaving in the project
    the files of [emit_files]. *)
Lemma generate_succeeds ext options config dmmf w :
  succeeds ext options config dmmf ->
  generate ext options w
  = (inr tt,
     {| project := emit_files ext options config dmmf (project w);
        trace := trace w ++ run_events options config |}).
Proof.
  intros (Hparse & Hzod & Hshield & prov & Hprov & Hdmmf).
  unfold generate, run_events. rewrite Hparse, Hprov, Hdmmf.
  unfold mbind, M_bind, bind, call, emit, modify_project, mret, M_ret, ret.
  unfold mbind, M_bind, bind, emit, throw. simpl.
  destruct (Js.truthy (withZod config)) eqn:Ez;
    destruct (Js.is_true (withShield config)) eqn:Es; simpl;
    rewrite ?Hzod, ?Hshield by reflexivity; simpl;
    rewrite <- ?app_assoc; reflexivity.
Qed.

(** ** The permission matrix *)

Lemma entry_of_spec ops mos k :
  entry_of ops mos k = true
  <-> exists mo op, In mo mos /\ In op ops /\ k = op +:+ model mo.
Proof.
  unfold entry_of. rewrite existsb_exists. split.
  - intros (mo & Hmo & H). apply existsb_exists in H as (op & Hop & H).
    apply String.eqb_eq in H. eauto.
  - intros (mo & op & Hmo & Hop & ->). exists mo. split; [assumption|].
    apply existsb_exists. exists op. split; [assumption|].
    apply String.eqb_refl.
Qed.

Ltac bucket_step :=
  unfold shield_step, entry_of, queryOperations, mutationOperations,
    subscriptionOperations;
  cbn [fold_left existsb query mutation subscription
       set_query set_mutation set_subscription];
  rewrite ?get_set, ?orb_false_r;
  repeat
    match goal with
    | |- context [String.eqb ?a ?b] => destruct (String.eqb a b); cbn [orb]
    end;
  reflexivity.

Lemma shield_step_query sc mo k :
  Js.get (query (shield_step sc mo)) k
  = if entry_of queryOperations [mo] k then Some "allow"
    else Js.get (query sc) k.
Proof. bucket_step. Qed.

Lemma shield_step_mutation sc mo k :
  Js.get (mutation (shield_step sc mo)) k
  = if entry_of mutationOperations [mo] k then Some "allow"
    else Js.get (mutation sc) k.
Proof. bucket_step. Qed.

Lemma shield_step_subscription sc mo k :
  Js.get (subscription (shield_step sc mo)) k
  = if entry_of subscriptionOperations [mo] k then Some "allow"
    else Js.get (subscription sc) k.
Proof. bucket_step. Qed.

Lemma entry_of_cons ops mo mos k :
  entry_of ops (mo :: mos) k = entry_of ops [mo] k || entry_of ops mos k.
Proof. unfold entry_of. cbn [existsb]. now rewrite orb_false_r. Qed.

Ltac bucket_loop lem :=
  let mo := fresh "mo" in
  let mos := fresh "mos" in
  let IH := fresh "IH" in
  intros mos; induction mos as [|mo mos IH]; intros ? k; cbn [fold_left];
  [ reflexivity
  | rewrite IH, lem, (entry_of_cons _ mo mos);
    destruct (entry_of _ mos k), (entry_of _ [mo] k); reflexivity ].

Lemma shield_loop_query :
  forall mos sc k,
    Js.get (query (fold_left shield_step mos sc)) k
    = if entry_of queryOperations mos k then Some "allow"
      else Js.get (query sc) k.
Proof. bucket_loop shield_step_query. Qed.

Lemma shield_loop_mutation :
  forall mos sc k,
    Js.get (mutation (fold_left shield_step mos sc)) k
    = if entry_of mutationOperations mos k then Some "allow"
      else Js.get (mutation sc) k.
Proof. bucket_loop shield_step_mutation. Qed.

Lemma shield_loop_subscription :
  forall mos sc k,
    Js.get (subscription (fold_left shield_step mos sc)) k
    = if entry_of subscriptionOperations mos k then Some "allow"
      else Js.get (subscription sc) k.
Proof. bucket_loop shield_step_subscription. Qed.

(** A bucket of the matrix holds the canonical operations of every entity
    of the mapping table, each mapped to ["allow"], and nothing else. *)
Lemma bucket_spec (bucket : ShieldConfig -> Js.object string)
    (ops : list string) (mos : list ModelMapping) :
  (forall k,
     Js.get (bucket (shieldConfig mos)) k
     = if entry_of ops mos k then Some "allow" else None) ->
  (forall mo op, In mo mos -> In op ops ->
     Js.get (bucket (shieldConfig mos)) (op +:+ model mo) = Some "allow")
  /\ (forall k v, Js.get (bucket (shieldConfig mos)) k = Some v ->
        v = "allow"
        /\ exists mo op, In mo mos /\ In op ops /\ k = op +:+ model mo).
Proof.
  intros Hget. split.
  - intros mo op Hmo Hop. rewrite Hget.
    assert (H : entry_of ops mos (op +:+ model mo) = true)
      by (apply entry_of_spec; eauto).
    now rewrite H.
  - intros k v. rewrite Hget.
    destruct (entry_of ops mos k) eqn:E; [|discriminate].
    intros [= <-]. split; [reflexivity|]. now apply entry_of_spec.
Qed.

Example shield_scenario_Order :
  mutation (shieldConfig [{| model := "Order"; operations := [] |}])
  = [("createOneOrder", "allow"); ("deleteManyOrder", "allow");
     ("deleteOneOrder", "allow"); ("updateManyOrder", "allow");
     ("updateOneOrder", "allow"); ("upsertOneOrder", "allow")].
Proof. reflexivity. Qed.

(** ** Configuration errors *)

(** C7.  If the run configuration fails schema validation, [generate]
    throws the one error ["Invalid options passed"] and leaves the world
    as it was: no directory is created or cleared, no delegate is called
    and no file is put in the project. *)
Theorem C7_invalid_configuration_aborts_first
    (ext : Externals) (options : Options) (w : World) :
  safeParse ext (generator_config options) = None ->
  generate ext options w = (inl "Invalid options passed", w).
Proof.
  intros Hparse. unfold generate. rewrite Hparse. reflexivity.
Qed.

Lemma C7_invalid_configuration_witness :
  Sample.parse [("withShield", "true")] = None
  /\ generate Sample.ext (Sample.options [("withShield", "true")])
       empty_world
     = (inl "Invalid options passed", empty_world).
Proof.
  split; [reflexivity|].
  apply (C7_invalid_configuration_aborts_first Sample.ext
           (Sample.options [("withShield", "true")]) empty_world).
  reflexivity.
Defined.

(** ** The policy-starter delegate and the policy file *)

Lemma is_true_spec (v : Js.value) :
  Js.is_true v = true <-> v = Js.VBool true.
Proof.
  destruct v as [| |[|]|s]; simpl; split; congruence.
Qed.

Lemma shield_call_in_run_events options config o :
  In (CallShieldGenerator o) (run_events options config)
  <-> Js.is_true (withShield config) = true
      /\ o = shield_options options config.
Proof.
  unfold run_events.
  destruct (Js.truthy (withZod config)), (Js.is_true (withShield config));
    simpl; split; intros H.
  all: repeat match goal with
       | H : _ \/ _ |- _ => destruct H
       | H : _ /\ _ |- _ => destruct H
       | H : False |- _ => destruct H
       end; try discriminate.
  all: try (split; [reflexivity | congruence]).
  all: subst; auto.
Qed.

(** C9.  In a run where no collaborator fails, the policy-starter delegate
    is called exactly when [config.withShield] is the boolean [true],
    whereas the shield import of the bootstrap file and the policy file
    [shield.ts] are written exactly when [config.withShield] is truthy.
    So a truthy value other than [true] gives the import and the policy
    file without a call of the delegate. *)
Theorem C9_shield_delegate_only_on_literal_true
    (ext : Externals) (options : Options) (config : Config)
    (dmmf : Document) (w : World) :
  succeeds ext options config dmmf ->
  exists events bootstrap,
    fst (generate ext options w) = inr tt
    /\ trace (snd (generate ext options w)) = trace w ++ events
    /\ project (snd (generate ext options w)) !! createRouter options
       = Some bootstrap
    /\ ((exists o, In (CallShieldGenerator o) events)
        <-> withShield config = Js.VBool true)
    /\ (In (ShieldImport options (withShield config)) bootstrap
        <-> Js.truthy (withShield config) = true)
    /\ (Js.truthy (withShield config) = true ->
        exists imports,
          project (snd (generate ext options w)) !! shieldFile options
          = Some [Statements imports;
                  Permissions (shieldConfig (modelOperations dmmf));
                  FormatText 2])
    /\ (Js.truthy (withShield config) = false ->
        project (snd (generate ext options w)) !! shieldFile options
        = project w !! shieldFile options).
Proof.
  intros Hok. rewrite (generate_succeeds _ _ _ _ w Hok). simpl.
  exists (run_events options config),
         (bootstrap_file options config).
  split; [reflexivity|]. split; [reflexivity|].
  split; [apply emit_files_createRouter|].
  split; [|split; [|split]].
  - rewrite <- is_true_spec. split.
    + intros [o Ho]. now apply shield_call_in_run_events in Ho.
    + intros Ht. exists (shield_options options config).
      now apply shield_call_in_run_events.
  - unfold bootstrap_file.
    destruct (Js.truthy (withShield config)); simpl; split; intros H.
    + reflexivity.
    + right; left; reflexivity.
    + destruct H as [H|[H|[H|[]]]]; discriminate H.
    + discriminate H.
  - intros Ht. eexists. rewrite emit_files_shieldFile by assumption.
    reflexivity.
  - intros Hf. rewrite emit_files_other.
    2:{ intros H. symmetry in H. now apply appRouter_shieldFile in H. }
    unfold after_shield. rewrite Hf.
    rewrite router_loop_other.
    + unfold before_loop. simpl.
      rewrite lookup_insert_ne by apply appRouter_shieldFile.
      now rewrite lookup_insert_ne by apply createRouter_shieldFile.
    + intros H. symmetry in H. now apply appRouter_shieldFile in H.
    + intros mo _ _. apply modelRouter_shieldFile.
Qed.

Ltac sample_succeeds :=
  unfold succeeds;
  split; [reflexivity|];
  split; [intros _; reflexivity|];
  split; [intros _; reflexivity|];
  eexists; split; reflexivity.

Ltac sample_NoDup :=
  cbn [map modelOperations model Sample.document Sample.mapping];
  repeat
    (apply NoDup_cons_2;
     [ let H := fresh in
       intros H; apply list_elem_of_In in H; cbn [In] in H;
       intuition discriminate
     | ]);
  apply NoDup_nil_2.

Lemma C9_shield_path_witness :
  succeeds Sample.ext (Sample.options (Sample.raw "../src/shield" "findMany"))
    (Sample.config "../src/shield" "findMany") Sample.document
  /\ withShield (Sample.config "../src/shield" "findMany")
     = Js.VString "../src/shield"
  /\ exists events bootstrap imports,
       trace
         (snd (generate Sample.ext
                 (Sample.options (Sample.raw "../src/shield" "findMany"))
                 empty_world))
       = events
       /\ (forall o, ~ In (CallShieldGenerator o) events)
       /\ project
            (snd (generate Sample.ext
                    (Sample.options (Sample.raw "../src/shield" "findMany"))
                    empty_world))
          !! createRouter
               (Sample.options (Sample.raw "../src/shield" "findMany"))
          = Some bootstrap
       /\ In (ShieldImport
                (Sample.options (Sample.raw "../src/shield" "findMany"))
                (Js.VString "../src/shield")) bootstrap
       /\ project
            (snd (generate Sample.ext
                    (Sample.options (Sample.raw "../src/shield" "findMany"))
                    empty_world))
          !! shieldFile
               (Sample.options (Sample.raw "../src/shield" "findMany"))
          = Some [Statements imports;
                  Permissions
                    (shieldConfig (modelOperations Sample.document));
                  FormatText 2].
Proof.
  assert (Hok :
    succeeds Sample.ext
      (Sample.options (Sample.raw "../src/shield" "findMany"))
      (Sample.config "../src/shield" "findMany") Sample.document)
    by sample_succeeds.
  split; [exact Hok|]. split; [reflexivity|].
  destruct (C9_shield_delegate_only_on_literal_true Sample.ext _ _ _
              empty_world Hok)
    as (events & bootstrap & _ & Htrace & Hboot & Hcall & Himport
        & Hfile & _).
  destruct (Hfile eq_refl) as [imports Himports].
  exists events, bootstrap, imports.
  split; [exact Htrace|]. split; [|split; [exact Hboot|split]].
  - intros o Hin.
    assert (H : withShield (Sample.config "../src/shield" "findMany")
                = Js.VBool true) by (apply Hcall; eauto).
    discriminate H.
  - apply Himport. reflexivity.
  - exact Himports.
Defined.

(** ** Determinism *)

(** C10.  Two runs of [generate] on the same schema and configuration,
    from any two states of the world, throw or return alike, make the
    same calls and write the same files with the same contents: each run
    lays the files of the run from the empty project over what its
    project held, so a path that the run writes holds the same file after
    both, and a second run after the first changes no file. *)
Theorem C10_generate_is_deterministic
    (ext : Externals) (options : Options) (w1 w2 : World) :
  let files := project (snd (generate ext options empty_world)) in
  let events := trace (snd (generate ext options empty_world)) in
  let run1 := generate ext options w1 in
  let run2 := generate ext options w2 in
  fst run1 = fst run2
  /\ trace (snd run1) = trace w1 ++ events
  /\ trace (snd run2) = trace w2 ++ events
  /\ project (snd run1) = files ∪ project w1
  /\ project (snd run2) = files ∪ project w2
  /\ (forall p : Path,
        is_Some (files !! p) ->
        project (snd run1) !! p = project (snd run2) !! p)
  /\ project (snd (generate ext options (snd run1))) = project (snd run1).
Proof.
  intros files events run1 run2. subst run1 run2.
  rewrite (framed_generate ext options (snd (generate ext options w1))).
  rewrite (framed_generate ext options w1).
  rewrite (framed_generate ext options w2).
  simpl. fold files events.
  repeat split.
  - intros p [f Hf]. rewrite !lookup_union, Hf.
    now destruct (project w1 !! p), (project w2 !! p).
  - now rewrite (assoc_L (∪)), (idemp_L (∪)).
Qed.

(** ** The policy file *)

(** C3.  When policy generation is on, the policy file holds a permission
    matrix in which, for every visible entity of the mapping table and
    whatever the allow-list [generateModelActions] is, the query bucket
    maps aggregate, findFirst, findMany, findUnique and groupBy suffixed
    with the entity name to ["allow"], the mutation bucket createOne,
    deleteMany, deleteOne, updateMany, updateOne and upsertOne, and the
    subscription bucket create, update and delete; and a bucket holds
    nothing but such entries of the entities of the mapping table. *)
Theorem C3_policy_matrix_of_canonical_operations
    (ext : Externals) (options : Options) (config : Config)
    (dmmf : Document) (w : World) (mo : ModelMapping) :
  succeeds ext options config dmmf ->
  Js.truthy (withShield config) = true ->
  In mo (modelOperations dmmf) ->
  Js.includes (resolveModelsComments ext (models dmmf)) (model mo) = false ->
  exists imports sc,
    project (snd (generate ext options w)) !! shieldFile options
    = Some [Statements imports; Permissions sc; FormatText 2]
    /\ (forall op,
          In op ["aggregate"; "findFirst"; "findMany"; "findUnique";
                 "groupBy"] ->
          Js.get (query sc) (op +:+ model mo) = Some "allow")
    /\ (forall op,
          In op ["createOne"; "deleteMany"; "deleteOne"; "updateMany";
                 "updateOne"; "upsertOne"] ->
          Js.get (mutation sc) (op +:+ model mo) = Some "allow")
    /\ (forall op,
          In op ["create"; "update"; "delete"] ->
          Js.get (subscription sc) (op +:+ model mo) = Some "allow")
    /\ (forall k v,
          Js.get (query sc) k = Some v ->
          v = "allow"
          /\ exists mo' op,
               In mo' (modelOperations dmmf)
               /\ In op ["aggregate"; "findFirst"; "findMany"; "findUnique";
                         "groupBy"]
               /\ k = op +:+ model mo')
    /\ (forall k v,
          Js.get (mutation sc) k = Some v ->
          v = "allow"
          /\ exists mo' op,
               In mo' (modelOperations dmmf)
               /\ In op ["createOne"; "deleteMany"; "deleteOne";
                         "updateMany"; "updateOne"; "upsertOne"]
               /\ k = op +:+ model mo')
    /\ (forall k v,
          Js.get (subscription sc) k = Some v ->
          v = "allow"
          /\ exists mo' op,
               In mo' (modelOperations dmmf)
               /\ In op ["create"; "update"; "delete"]
               /\ k = op +:+ model mo').
Proof.
  intros Hok Hshield Hin _.
  rewrite (generate_succeeds _ _ _ _ w Hok). simpl.
  rewrite emit_files_shieldFile by assumption.
  eexists; eexists. split; [reflexivity|].
  destruct (bucket_spec query queryOperations (modelOperations dmmf))
    as [Hq1 Hq2].
  { intros k. unfold shieldConfig. now rewrite shield_loop_query. }
  destruct (bucket_spec mutation mutationOperations (modelOperations dmmf))
    as [Hm1 Hm2].
  { intros k. unfold shieldConfig. now rewrite shield_loop_mutation. }
  destruct
    (bucket_spec subscription subscriptionOperations (modelOperations dmmf))
    as [Hs1 Hs2].
  { intros k. unfold shieldConfig. now rewrite shield_loop_subscription. }
  repeat split; intros; eauto.
  - now apply (Hq2 k v).
  - now apply (Hq2 k v).
  - now apply (Hm2 k v).
  - now apply (Hm2 k v).
  - now apply (Hs2 k v).
  - now apply (Hs2 k v).
Qed.

Lemma C3_policy_matrix_Order_witness :
  succeeds Sample.ext (Sample.options (Sample.raw "true" "findMany"))
    (Sample.config "true" "findMany") Sample.document
  /\ Js.truthy (withShield (Sample.config "true" "findMany")) = true
  /\ In (Sample.mapping "Order") (modelOperations Sample.document)
  /\ Js.includes
       (resolveModelsComments Sample.ext (models Sample.document)) "Order"
     = false
  /\ exists imports sc,
       project
         (snd (generate Sample.ext
                 (Sample.options (Sample.raw "true" "findMany"))
                 empty_world))
       !! shieldFile (Sample.options (Sample.raw "true" "findMany"))
       = Some [Statements imports; Permissions sc; FormatText 2]
       /\ Js.get (query sc) "findManyOrder" = Some "allow"
       /\ Js.get (mutation sc) "createOneOrder" = Some "allow"
       /\ Js.get (mutation sc) "deleteManyOrder" = Some "allow"
       /\ Js.get (mutation sc) "deleteOneOrder" = Some "allow"
       /\ Js.get (mutation sc) "updateManyOrder" = Some "allow"
       /\ Js.get (mutation sc) "updateOneOrder" = Some "allow"
       /\ Js.get (mutation sc) "upsertOneOrder" = Some "allow"
       /\ Js.get (subscription sc) "deleteOrder" = Some "allow".
Proof.
  assert (Hok :
    succeeds Sample.ext (Sample.options (Sample.raw "true" "findMany"))
      (Sample.config "true" "findMany") Sample.document)
    by sample_succeeds.
  assert (Hin : In (Sample.mapping "Order") (modelOperations Sample.document))
    by (right; right; left; reflexivity).
  split; [exact Hok|]. split; [reflexivity|]. split; [exact Hin|].
  split; [reflexivity|].
  destruct (C3_policy_matrix_of_canonical_operations Sample.ext _ _ _
              empty_world (Sample.mapping "Order") Hok eq_refl Hin eq_refl)
    as (imports & sc & Hfile & Hq & Hm & Hs & _).
  exists imports, sc. split; [exact Hfile|].
  split; [apply (Hq "findMany"); simpl; tauto|].
  split; [apply (Hm "createOne"); simpl; tauto|].
  split; [apply (Hm "deleteMany"); simpl; tauto|].
  split; [apply (Hm "deleteOne"); simpl; tauto|].
  split; [apply (Hm "updateMany"); simpl; tauto|].
  split; [apply (Hm "updateOne"); simpl; tauto|].
  split; [apply (Hm "upsertOne"); simpl; tauto|].
  apply (Hs "delete"); simpl; tauto.
Defined.

(** ** Hidden entities *)

(** A hidden entity is not among the generated ones: it gets no import and
    no entry in the aggregate router, and the run does not touch the path
    of its router file. *)
Lemma hidden_entity_gets_no_router
    (ext : Externals) (options : Options) (config : Config)
    (dmmf : Document) (w : World) (m : string) :
  succeeds ext options config dmmf ->
  Js.includes (resolveModelsComments ext (models dmmf)) m = true ->
  (forall mo, In mo (generated_entities ext config dmmf) -> model mo <> m)
  /\ project (snd (generate ext options w)) !! appRouter options
     = Some (aggregate_file ext config dmmf)
  /\ project (snd (generate ext options w)) !! modelRouter options m
     = project w !! modelRouter options m.
Proof.
  intros Hok Hhid.
  assert (Hgen :
    forall mo, In mo (generated_entities ext config dmmf) -> model mo <> m).
  { intros mo Hmo Heq. subst m. unfold generated_entities in Hmo.
    apply filter_In in Hmo as [_ Hmo]. unfold generated in Hmo.
    rewrite Hhid in Hmo. discriminate Hmo. }
  split; [exact Hgen|].
  rewrite (generate_succeeds _ _ _ _ w Hok). simpl.
  split; [apply emit_files_appRouter|].
  now apply emit_files_no_modelRouter.
Qed.

(** C2, at an input where it fails.  [Secret] carries the hide marker and
    policy generation is on: the entity has no router file, yet every
    bucket of the policy file holds its entries. *)
Theorem C2_hidden_entity_in_policy_file :
  Js.includes (resolveModelsComments Sample.ext (models Sample.document))
    "Secret" = true
  /\ project
       (snd (generate Sample.ext
               (Sample.options (Sample.raw "true" "findMany"))
               empty_world))
     !! modelRouter (Sample.options (Sample.raw "true" "findMany")) "Secret"
     = None
  /\ exists imports sc,
       project
         (snd (generate Sample.ext
                 (Sample.options (Sample.raw "true" "findMany"))
                 empty_world))
       !! shieldFile (Sample.options (Sample.raw "true" "findMany"))
       = Some [Statements imports; Permissions sc; FormatText 2]
       /\ Js.get (query sc) "aggregateSecret" = Some "allow"
       /\ Js.get (mutation sc) "createOneSecret" = Some "allow"
       /\ Js.get (subscription sc) "createSecret" = Some "allow".
Proof.
  split; [reflexivity|]. split; [vm_compute; reflexivity|].
  eexists; eexists. split; [vm_compute; reflexivity|].
  repeat split; vm_compute; reflexivity.
Qed.

(** ** Entities without a resolved operation *)

Lemma NoDup_map_inj {A B} (f : A -> B) (l : list A) (a b : A) :
  NoDup (map f l) -> In a l -> In b l -> f a = f b -> a = b.
Proof.
  induction l as [|x l IH]; simpl; [tauto|].
  intros Hnd Ha Hb Heq. apply NoDup_cons in Hnd as [Hx Hnd].
  destruct Ha as [->|Ha], Hb as [->|Hb]; auto.
  - exfalso. apply Hx. rewrite Heq. apply list_elem_of_In. now apply in_map.
  - exfalso. apply Hx. rewrite <- Heq. apply list_elem_of_In.
    now apply in_map.
Qed.

Lemma generated_spec config hiddenModels mo :
  generated config hiddenModels mo = true
  <-> Js.includes hiddenModels (model mo) = false
      /\ modelActions config (operations mo) <> [].
Proof.
  unfold generated.
  destruct (Js.includes hiddenModels (model mo)); simpl.
  - split; [discriminate | intros [H _]; discriminate H].
  - destruct (modelActions config (operations mo)); simpl.
    + split; [discriminate | intros [_ H]; now destruct H].
    + split; [split; [reflexivity | discriminate] | reflexivity].
Qed.

(** C1, as the code has it.  An entity whose resolved operation list is
    empty is skipped, also when it is not hidden: the run does not touch
    the path of its router file, so no subscription endpoint is emitted
    for it, and the aggregate router is built from entities none of which
    is this one. *)
Theorem C1_entity_without_resolved_operation_is_skipped
    (ext : Externals) (options : Options) (config : Config)
    (dmmf : Document) (w : World) (mo : ModelMapping) :
  succeeds ext options config dmmf ->
  NoDup (map model (modelOperations dmmf)) ->
  In mo (modelOperations dmmf) ->
  modelActions config (operations mo) = [] ->
  exists entities,
    fst (generate ext options w) = inr tt
    /\ project (snd (generate ext options w)) !! modelRouter options (model mo)
       = project w !! modelRouter options (model mo)
    /\ project (snd (generate ext options w)) !! appRouter options
       = Some ([CreateRouterImport None] ++
               map (router_import ext) entities ++
               [Statements (appRouter_text (map (router_entry ext) entities));
                FormatText 2])
    /\ forall mo', In mo' entities -> model mo' <> model mo.
Proof.
  intros Hok Hnd Hin Hempty.
  exists (generated_entities ext config dmmf).
  rewrite (generate_succeeds _ _ _ _ w Hok). simpl.
  assert (Hnot :
    forall mo', In mo' (generated_entities ext config dmmf) ->
                model mo' <> model mo).
  { intros mo' Hmo' Heq. unfold generated_entities in Hmo'.
    apply filter_In in Hmo' as [Hin' Hgen].
    assert (mo' = mo) by (eapply NoDup_map_inj; eauto). subst mo'.
    apply generated_spec in Hgen as [_ Hgen]. now apply Hgen. }
  split; [reflexivity|].
  split; [now apply emit_files_no_modelRouter|].
  split; [apply emit_files_appRouter | exact Hnot].
Qed.

Lemma C1_skipped_entity_witness :
  succeeds Sample.ext (Sample.options (Sample.raw "false" "upsert"))
    (Sample.config "false" "upsert") Sample.document
  /\ modelActions (Sample.config "false" "upsert")
       (operations (Sample.mapping "Person")) = []
  /\ exists entities,
       project
         (snd (generate Sample.ext
                 (Sample.options (Sample.raw "false" "upsert"))
                 empty_world))
       !! modelRouter (Sample.options (Sample.raw "false" "upsert")) "Person"
       = None
       /\ forall mo', In mo' entities -> model mo' <> "Person".
Proof.
  assert (Hok :
    succeeds Sample.ext (Sample.options (Sample.raw "false" "upsert"))
      (Sample.config "false" "upsert") Sample.document)
    by sample_succeeds.
  split; [exact Hok|]. split; [reflexivity|].
  destruct (C1_entity_without_resolved_operation_is_skipped Sample.ext _ _ _
              empty_world (Sample.mapping "Person") Hok)
    as (entities & _ & Hfile & _ & Hnot).
  - sample_NoDup.
  - left; reflexivity.
  - reflexivity.
  - exists entities. split; [exact Hfile | exact Hnot].
Defined.

(** C1 as stated fails: [Person] is not hidden and none of its operations
    is in the allow-list, and the run writes no router file for it (no
    subscription endpoint is emitted) and the aggregate router has no
    entry at all. *)
Lemma C1_no_router_file_counterexample :
  Js.includes (resolveModelsComments Sample.ext (models Sample.document))
    "Person" = false
  /\ modelActions (Sample.config "false" "upsert")
       (operations (Sample.mapping "Person")) = []
  /\ fst (generate Sample.ext (Sample.options (Sample.raw "false" "upsert"))
            empty_world) = inr tt
  /\ project
       (snd (generate Sample.ext
               (Sample.options (Sample.raw "false" "upsert"))
               empty_world))
     !! modelRouter (Sample.options (Sample.raw "false" "upsert")) "Person"
     = None
  /\ project
       (snd (generate Sample.ext
               (Sample.options (Sample.raw "false" "upsert"))
               empty_world))
     !! appRouter (Sample.options (Sample.raw "false" "upsert"))
     = Some [CreateRouterImport None; Statements (appRouter_text []);
             FormatText 2].
Proof.
  repeat split; vm_compute; reflexivity.
Qed.

(** ** The allow-list *)

(** C4, as the code has it.  A declared operation is resolved exactly
    when the allow-list holds its kind with the first ["One"] taken out;
    ["OrThrow"] is not taken out for that test, so an OrThrow variant is
    resolved exactly when the allow-list holds the variant itself. *)
Theorem C4_allow_list_tested_without_One_only
    (config : Config) (operations : Js.object (option string))
    (opType : string) :
  (In opType (modelActions config operations)
   <-> In opType (Js.keys operations)
       /\ In (Js.replace "One" "" opType) (generateModelActions config))
  /\ (In "findUniqueOrThrow" (modelActions config operations)
      <-> In "findUniqueOrThrow" (Js.keys operations)
          /\ In "findUniqueOrThrow" (generateModelActions config))
  /\ (In "findFirstOrThrow" (modelActions config operations)
      <-> In "findFirstOrThrow" (Js.keys operations)
          /\ In "findFirstOrThrow" (generateModelActions config)).
Proof.
  assert (H : forall k,
    In k (modelActions config operations)
    <-> In k (Js.keys operations)
        /\ In (Js.replace "One" "" k) (generateModelActions config)).
  { intros k. unfold modelActions. rewrite filter_In, includes_In.
    reflexivity. }
  split; [apply H|].
  split; [apply (H "findUniqueOrThrow") | apply (H "findFirstOrThrow")].
Qed.

(** C4 as stated fails: the allow-list holds [findUnique], the base kind
    of the declared [findUniqueOrThrow], and the variant is not resolved. *)
Lemma C4_OrThrow_not_resolved_counterexample :
  In "findUniqueOrThrow" (Js.keys (operations (Sample.mapping "Person")))
  /\ Js.replace "OrThrow" "" (Js.replace "One" "" "findUniqueOrThrow")
     = "findUnique"
  /\ In "findUnique"
       (generateModelActions (Sample.config "false" "findUnique"))
  /\ ~ In "findUniqueOrThrow"
         (modelActions (Sample.config "false" "findUnique")
            (operations (Sample.mapping "Person"))).
Proof.
  split; [left; reflexivity|]. split; [reflexivity|].
  split; [left; reflexivity|].
  intros H. vm_compute in H. exact H.
Qed.

(** ** Names in the aggregate router *)

(** C5, as the code has it.  The aggregate router imports, for every
    generated entity in the order of the mapping table, the router named
    by the pluralized lower-cased entity name, and its dispatch object
    maps the lower-cased entity name, not pluralized, to that router. *)
Theorem C5_aggregate_key_is_lower_cased_name
    (ext : Externals) (options : Options) (config : Config)
    (dmmf : Document) (w : World) :
  succeeds ext options config dmmf ->
  exists entities,
    (forall mo,
       In mo entities
       <-> In mo (modelOperations dmmf)
           /\ Js.includes (resolveModelsComments ext (models dmmf)) (model mo)
              = false
           /\ modelActions config (operations mo) <> [])
    /\ project (snd (generate ext options w)) !! appRouter options
       = Some
           ([CreateRouterImport None] ++
            map (fun mo =>
                   RouterImport (pluralize ext (Js.toLowerCase (model mo)))
                     (model mo))
              entities ++
            [Statements
               (appRouter_text
                  (map (fun mo =>
                          routerStatement (Js.toLowerCase (model mo))
                            (pluralize ext (Js.toLowerCase (model mo))
                             +:+ "Router"))
                     entities));
             FormatText 2]).
Proof.
  intros Hok. exists (generated_entities ext config dmmf). split.
  - intros mo. unfold generated_entities.
    rewrite filter_In, generated_spec. reflexivity.
  - rewrite (generate_succeeds _ _ _ _ w Hok). simpl.
    apply emit_files_appRouter.
Qed.

Lemma C5_aggregate_of_sample_witness :
  succeeds Sample.ext (Sample.options (Sample.raw "false" "findMany"))
    (Sample.config "false" "findMany") Sample.document
  /\ exists entities,
       project
         (snd (generate Sample.ext
                 (Sample.options (Sample.raw "false" "findMany"))
                 empty_world))
       !! appRouter (Sample.options (Sample.raw "false" "findMany"))
       = Some
           ([CreateRouterImport None] ++
            map (fun mo =>
                   RouterImport (Sample.plural_of (Js.toLowerCase (model mo)))
                     (model mo))
              entities ++
            [Statements
               (appRouter_text
                  (map (fun mo =>
                          routerStatement (Js.toLowerCase (model mo))
                            (Sample.plural_of (Js.toLowerCase (model mo))
                             +:+ "Router"))
                     entities));
             FormatText 2]).
Proof.
  assert (Hok :
    succeeds Sample.ext (Sample.options (Sample.raw "false" "findMany"))
      (Sample.config "false" "findMany") Sample.document)
    by sample_succeeds.
  split; [exact Hok|].
  destruct (C5_aggregate_key_is_lower_cased_name Sample.ext _ _ _
              empty_world Hok) as (entities & _ & Hfile).
  exists entities. exact Hfile.
Defined.

(** C5 as stated fails: the router of [Person] is imported as
    [peopleRouter], and its key in the dispatch object is [person], which
    is not the pluralized name [people]. *)
Lemma C5_key_not_pluralized_counterexample :
  project
    (snd (generate Sample.ext
            (Sample.options (Sample.raw "false" "findMany"))
            empty_world))
  !! appRouter (Sample.options (Sample.raw "false" "findMany"))
  = Some [CreateRouterImport None;
          RouterImport "people" "Person";
          RouterImport "orders" "Order";
          Statements
            (appRouter_text
               [routerStatement "person" "peopleRouter";
                routerStatement "order" "ordersRouter"]);
          FormatText 2]
  /\ pluralize Sample.ext (Js.toLowerCase "Person") = "people"
  /\ routerStatement "person" "peopleRouter"
     <> routerStatement (pluralize Sample.ext (Js.toLowerCase "Person"))
          "peopleRouter".
Proof.
  split; [vm_compute; reflexivity|]. split; [reflexivity|].
  intros H. vm_compute in H. discriminate H.
Qed.

(** ** The endpoints of a router file *)

Lemma filter_procedures {A} (g : A -> Stmt) (l : list A) :
  (forall x, is_procedure (g x) = true) ->
  List.filter is_procedure (map g l) = map g l.
Proof.
  intros Hg. induction l as [|x l IH]; simpl; [reflexivity|].
  now rewrite Hg, IH.
Qed.

(** The endpoints of a router file: one per resolved operation, then the
    three subscriptions. *)
Lemma router_file_procedures ext config mo :
  List.filter is_procedure (router_file ext config mo)
  = map (dispatch_procedure ext config (model mo) (operations mo))
      (modelActions config (operations mo)) ++
    map (subscription_procedure config (model mo)) subscriptionOperations.
Proof.
  unfold router_file. rewrite !List.filter_app.
  rewrite !filter_procedures by reflexivity.
  destruct (Js.truthy (withZod config)); simpl; rewrite ?app_nil_r;
    reflexivity.
Qed.

(** C6.  A visible entity with at least one resolved operation has a
    router file whose endpoints are one dispatch endpoint per resolved
    operation, in the order of the declarations, followed by the three
    subscription endpoints create, update and delete. *)
Theorem C6_dispatch_endpoints_then_three_subscriptions
    (ext : Externals) (options : Options) (config : Config)
    (dmmf : Document) (w : World) (mo : ModelMapping) :
  succeeds ext options config dmmf ->
  NoDup (map model (modelOperations dmmf)) ->
  In mo (modelOperations dmmf) ->
  Js.includes (resolveModelsComments ext (models dmmf)) (model mo) = false ->
  modelActions config (operations mo) <> [] ->
  exists file,
    project (snd (generate ext options w)) !! modelRouter options (model mo)
    = Some file
    /\ List.filter is_procedure file
       = map (dispatch_procedure ext config (model mo) (operations mo))
           (modelActions config (operations mo)) ++
         [Procedure "create" (Some "") (model mo) "subscription:create"
            "create" config;
          Procedure "update" (Some "") (model mo) "subscription:update"
            "update" config;
          Procedure "delete" (Some "") (model mo) "subscription:delete"
            "delete" config].
Proof.
  intros Hok Hnd Hin Hvis Hacts.
  exists (router_file ext config mo).
  rewrite (generate_succeeds _ _ _ _ w Hok). simpl.
  split; [|apply router_file_procedures].
  apply emit_files_modelRouter; try assumption.
  now apply generated_spec.
Qed.

Lemma C6_router_of_Order_witness :
  succeeds Sample.ext (Sample.options (Sample.raw "false" "findMany,create"))
    (Sample.config "false" "findMany,create") Sample.document
  /\ modelActions (Sample.config "false" "findMany,create")
       (operations (Sample.mapping "Order"))
     = ["findMany"; "createOne"]
  /\ exists file,
       project
         (snd (generate Sample.ext
                 (Sample.options (Sample.raw "false" "findMany,create"))
                 empty_world))
       !! modelRouter (Sample.options (Sample.raw "false" "findMany,create"))
            "Order"
       = Some file
       /\ map (fun s => match s with
                        | Procedure n _ _ _ _ _ => n
                        | _ => ""
                        end)
            (List.filter is_procedure file)
          = ["findManyOrder"; "createOneOrder"; "create"; "update"; "delete"].
Proof.
  assert (Hok :
    succeeds Sample.ext
      (Sample.options (Sample.raw "false" "findMany,create"))
      (Sample.config "false" "findMany,create") Sample.document)
    by sample_succeeds.
  split; [exact Hok|]. split; [reflexivity|].
  destruct (C6_dispatch_endpoints_then_three_subscriptions Sample.ext _ _ _
              empty_world (Sample.mapping "Order") Hok)
    as (file & Hfile & Hprocs).
  - sample_NoDup.
  - right; right; left; reflexivity.
  - reflexivity.
  - discriminate.
  - exists file. split; [exact Hfile|]. rewrite Hprocs. reflexivity.
Defined.

(** C8.  The endpoint of a resolved operation is named with the declared
    operation name of that kind when there is one (a non-empty string),
    and with the operation kind itself when the declared name is [null],
    [undefined] or empty. *)
Theorem C8_endpoint_named_by_declared_name_or_kind
    (ext : Externals) (options : Options) (config : Config)
    (dmmf : Document) (w : World) (mo : ModelMapping) (opType : string) :
  succeeds ext options config dmmf ->
  NoDup (map model (modelOperations dmmf)) ->
  In mo (modelOperations dmmf) ->
  Js.includes (resolveModelsComments ext (models dmmf)) (model mo) = false ->
  In opType (modelActions config (operations mo)) ->
  exists file endpoint typeName declared,
    project (snd (generate ext options w)) !! modelRouter options (model mo)
    = Some file
    /\ In (Procedure endpoint typeName (model mo) opType
             (Js.replace "OrThrow" "" opType) config) file
    /\ Js.get (operations mo) opType = Some declared
    /\ (forall n, declared = Some n -> n <> "" -> endpoint = n)
    /\ (declared = None \/ declared = Some "" -> endpoint = opType).
Proof.
  intros Hok Hnd Hin Hvis Hop.
  assert (Hkey : In opType (Js.keys (operations mo))).
  { unfold modelActions in Hop. now apply filter_In in Hop as [Hkey _]. }
  destruct (get_In_keys _ _ Hkey) as [declared Hget].
  exists (router_file ext config mo),
         (opNameWithModel (operations mo) opType),
         (getInputTypeByOpName ext (Js.replace "OrThrow" "" opType)
            (model mo)),
         declared.
  rewrite (generate_succeeds _ _ _ _ w Hok). cbn [snd project].
  split; [|split; [|split; [exact Hget|split]]].
  - apply emit_files_modelRouter; try assumption.
    apply generated_spec. split; [assumption|].
    intros Hnil. rewrite Hnil in Hop. destruct Hop.
  - unfold router_file. rewrite !in_app_iff. right; right; right; left.
    apply in_map_iff. exists opType. split; [reflexivity | assumption].
  - intros n -> Hn. unfold opNameWithModel. rewrite Hget.
    apply String.eqb_neq in Hn. now rewrite Hn.
  - unfold opNameWithModel. rewrite Hget.
    intros [->| ->]; reflexivity.
Qed.

Lemma C8_endpoint_names_witness :
  succeeds Sample.ext (Sample.options (Sample.raw "false" "findMany,create"))
    (Sample.config "false" "findMany,create") Sample.document
  /\ In "createOne"
       (modelActions (Sample.config "false" "findMany,create")
          (operations (Sample.mapping "Order")))
  /\ exists file endpoint typeName,
       project
         (snd (generate Sample.ext
                 (Sample.options (Sample.raw "false" "findMany,create"))
                 empty_world))
       !! modelRouter (Sample.options (Sample.raw "false" "findMany,create"))
            "Order"
       = Some file
       /\ In (Procedure endpoint typeName "Order" "createOne" "createOne"
                (Sample.config "false" "findMany,create")) file
       /\ endpoint = "createOneOrder".
Proof.
  assert (Hok :
    succeeds Sample.ext
      (Sample.options (Sample.raw "false" "findMany,create"))
      (Sample.config "false" "findMany,create") Sample.document)
    by sample_succeeds.
  assert (Hop :
    In "createOne"
      (modelActions (Sample.config "false" "findMany,create")
         (operations (Sample.mapping "Order"))))
    by (right; left; reflexivity).
  split; [exact Hok|]. split; [exact Hop|].
  destruct (C8_endpoint_named_by_declared_name_or_kind Sample.ext _ _ _
              empty_world (Sample.mapping "Order") "createOne" Hok)
    as (file & endpoint & typeName & declared & Hfile & Hin & Hget & Hname
        & _).
  - sample_NoDup.
  - right; right; left; reflexivity.
  - reflexivity.
  - exact Hop.
  - exists file, endpoint, typeName.
    split; [exact Hfile|]. split; [exact Hin|].
    apply Hname; [|discriminate].
    cbv in Hget. now injection Hget as <-.
Defined.

(** ** Runs that throw *)

Ltac run_generate :=
  unfold generate, mbind, M_bind, bind, call, emit, modify_project, mret,
    M_ret, ret;
  unfold mbind, M_bind, bind, emit, throw; cbn [project trace fst snd].

(** Every way the run can go, one goal each. *)
Ltac run_cases :=
  repeat
    (match goal with
     | |- context [safeParse ?e ?c] => destruct (safeParse e c)
     | |- context [Js.truthy ?v] => destruct (Js.truthy v)
     | |- context [Js.is_true ?v] => destruct (Js.is_true v)
     | |- context [PrismaZodGenerator ?e ?o] =>
         destruct (PrismaZodGenerator e o)
     | |- context [PrismaTrpcShieldGenerator ?e ?o] =>
         destruct (PrismaTrpcShieldGenerator e o)
     | |- context [prismaClientProvider ?o] =>
         destruct (prismaClientProvider o)
     | |- context [getDMMF ?e ?d ?f] => destruct (getDMMF e d f)
     end; cbn [project trace fst snd]).

(** X1.  [project.save()] is reached exactly when nothing threw, and a
    run that throws, at whatever point, leaves the project as it was: no
    file is created or changed in it. *)
Theorem save_only_when_nothing_threw
    (ext : Externals) (options : Options) (w : World) :
  exists events,
    trace (snd (generate ext options w)) = trace w ++ events
    /\ (In Save events <-> fst (generate ext options w) = inr tt)
    /\ (fst (generate ext options w) <> inr tt ->
        project (snd (generate ext options w)) = project w).
Proof.
  destruct w as [P t]. run_generate. run_cases.
  all: eexists; split;
    [rewrite <- ?app_assoc; try reflexivity; now rewrite app_nil_r|].
  all: cbn [app In]; (split; [split|]).
  all: intros H; try reflexivity; try discriminate H; try (now destruct H).
  all: repeat (destruct H as [H|H]; try discriminate H); tauto.
Qed.

(** X2.  When the schema declares no [prisma-client-js] generator the run
    throws, but only after the output directory was created and cleared
    and the delegates that are switched on have run; [getDMMF] is not
    called and the project is as it was. *)
Theorem missing_client_generator_throws_late
    (ext : Externals) (options : Options) (config : Config) (w : World) :
  safeParse ext (generator_config options) = Some config ->
  (Js.truthy (withZod config) = true ->
   PrismaZodGenerator ext options = None) ->
  (Js.is_true (withShield config) = true ->
   PrismaTrpcShieldGenerator ext (shield_options options config) = None) ->
  prismaClientProvider options = None ->
  exists err,
    generate ext options w
    = (inl err,
       {| project := project w;
          trace :=
            trace w ++
            [Mkdir (generator_output options);
             RemoveDir (generator_output options) true] ++
            (if Js.truthy (withZod config)
             then [CallZodGenerator options] else []) ++
            (if Js.is_true (withShield config)
             then [CallShieldGenerator (shield_options options config)]
             else []) |}).
Proof.
  intros Hparse Hzod Hshield Hprov. destruct w as [P t].
  run_generate. rewrite Hparse, Hprov. cbn [project trace fst snd].
  destruct (Js.truthy (withZod config));
    destruct (Js.is_true (withShield config));
    rewrite ?Hzod, ?Hshield by reflexivity; cbn [project trace fst snd];
    eexists; rewrite <- ?app_assoc; reflexivity.
Qed.

Lemma missing_client_generator_witness :
  prismaClientProvider Faulty.options_without_client = None
  /\ exists err,
       generate (Faulty.ext None None (inl "unused"))
         Faulty.options_without_client empty_world
       = (inl err,
          {| project := ∅;
             trace :=
               [Mkdir ["/app"; "generated"];
                RemoveDir ["/app"; "generated"] true;
                CallZodGenerator Faulty.options_without_client;
                CallShieldGenerator
                  (shield_options Faulty.options_without_client
                     Faulty.config)] |}).
Proof.
  split; [reflexivity|].
  apply (missing_client_generator_throws_late
           (Faulty.ext None None (inl "unused"))
           Faulty.options_without_client Faulty.config empty_world);
    reflexivity.
Defined.

(** X3.  When the validation delegate rejects, the run throws the
    delegate's error unchanged, right after the call: the policy-starter
    delegate and [getDMMF] are never called, whatever [withShield] is,
    and the project is as it was. *)
Theorem zod_rejection_is_thrown
    (ext : Externals) (options : Options) (config : Config) (w : World)
    (err : string) :
  safeParse ext (generator_config options) = Some config ->
  Js.truthy (withZod config) = true ->
  PrismaZodGenerator ext options = Some err ->
  generate ext options w
  = (inl err,
     {| project := project w;
        trace :=
          trace w ++
          [Mkdir (generator_output options);
           RemoveDir (generator_output options) true;
           CallZodGenerator options] |}).
Proof.
  intros Hparse Hzod Herr. destruct w as [P t].
  run_generate. rewrite Hparse, Hzod. cbn [project trace fst snd].
  rewrite Herr. cbn [project trace fst snd].
  now rewrite <- !app_assoc.
Qed.

Lemma zod_rejection_witness :
  generate (Faulty.ext (Some "zod: bad schema") None (inl "unused"))
    (Sample.options []) empty_world
  = (inl "zod: bad schema",
     {| project := ∅;
        trace :=
          [Mkdir ["/app"; "generated"];
           RemoveDir ["/app"; "generated"] true;
           CallZodGenerator (Sample.options [])] |}).
Proof.
  apply (zod_rejection_is_thrown
           (Faulty.ext (Some "zod: bad schema") None (inl "unused"))
           (Sample.options []) Faulty.config empty_world "zod: bad schema");
    reflexivity.
Defined.

(** X4.  When the policy-starter delegate rejects, the run throws the
    delegate's error unchanged: the validation delegate, if switched on,
    has run before it, [getDMMF] is not called and the project is as it
    was. *)
Theorem shield_rejection_is_thrown
    (ext : Externals) (options : Options) (config : Config) (w : World)
    (err : string) :
  safeParse ext (generator_config options) = Some config ->
  (Js.truthy (withZod config) = true ->
   PrismaZodGenerator ext options = None) ->
  withShield config = Js.VBool true ->
  PrismaTrpcShieldGenerator ext (shield_options options config) = Some err ->
  generate ext options w
  = (inl err,
     {| project := project w;
        trace :=
          trace w ++
          [Mkdir (generator_output options);
           RemoveDir (generator_output options) true] ++
          (if Js.truthy (withZod config)
           then [CallZodGenerator options] else []) ++
          [CallShieldGenerator (shield_options options config)] |}).
Proof.
  intros Hparse Hzod Hshield Herr. destruct w as [P t].
  run_generate. rewrite Hparse, Hshield. cbn [Js.is_true project trace fst snd].
  destruct (Js.truthy (withZod config));
    rewrite ?Hzod by reflexivity; cbn [project trace fst snd];
    rewrite Herr; cbn [project trace fst snd];
    rewrite <- ?app_assoc; reflexivity.
Qed.

Lemma shield_rejection_witness :
  generate (Faulty.ext None (Some "shield: no context") (inl "unused"))
    (Sample.options []) empty_world
  = (inl "shield: no context",
     {| project := ∅;
        trace :=
          [Mkdir ["/app"; "generated"];
           RemoveDir ["/app"; "generated"] true;
           CallZodGenerator (Sample.options []);
           CallShieldGenerator
             (shield_options (Sample.options []) Faulty.config)] |}).
Proof.
  apply (shield_rejection_is_thrown
           (Faulty.ext None (Some "shield: no context") (inl "unused"))
           (Sample.options []) Faulty.config empty_world
           "shield: no context");
    reflexivity.
Defined.

(** X5.  When [getDMMF] rejects, the run throws its error unchanged after
    the delegates have run, and puts nothing in the project. *)
Theorem getDMMF_rejection_is_thrown
    (ext : Externals) (options : Options) (config : Config) (w : World)
    (prov : GeneratorConfig) (err : string) :
  safeParse ext (generator_config options) = Some config ->
  (Js.truthy (withZod config) = true ->
   PrismaZodGenerator ext options = None) ->
  (Js.is_true (withShield config) = true ->
   PrismaTrpcShieldGenerator ext (shield_options options config) = None) ->
  prismaClientProvider options = Some prov ->
  getDMMF ext (datamodel options) (previewFeatures prov) = inl err ->
  generate ext options w
  = (inl err,
     {| project := project w;
        trace :=
          trace w ++
          [Mkdir (generator_output options);
           RemoveDir (generator_output options) true] ++
          (if Js.truthy (withZod config)
           then [CallZodGenerator options] else []) ++
          (if Js.is_true (withShield config)
           then [CallShieldGenerator (shield_options options config)]
           else []) ++
          [CallGetDMMF (datamodel options) (previewFeatures prov)] |}).
Proof.
  intros Hparse Hzod Hshield Hprov Herr. destruct w as [P t].
  run_generate. rewrite Hparse, Hprov, Herr. cbn [project trace fst snd].
  destruct (Js.truthy (withZod config));
    destruct (Js.is_true (withShield config));
    rewrite ?Hzod, ?Hshield by reflexivity; cbn [project trace fst snd];
    rewrite <- ?app_assoc; reflexivity.
Qed.

Lemma getDMMF_rejection_witness :
  generate (Faulty.ext None None (inl "P1012: schema is invalid"))
    (Sample.options []) empty_world
  = (inl "P1012: schema is invalid",
     {| project := ∅;
        trace :=
          [Mkdir ["/app"; "generated"];
           RemoveDir ["/app"; "generated"] true;
           CallZodGenerator (Sample.options []);
           CallShieldGenerator
             (shield_options (Sample.options []) Faulty.config);
           CallGetDMMF "model Person {} model Secret {} model Order {}" []]
     |}).
Proof.
  apply (getDMMF_rejection_is_thrown
           (Faulty.ext None None (inl "P1012: schema is invalid"))
           (Sample.options []) Faulty.config empty_world
           {| provider := "prisma-client-js"; previewFeatures := [] |}
           "P1012: schema is invalid");
    reflexivity.
Defined.

(** ** The calls of a run that returns *)

(** X6.  In a run where no collaborator fails, the effects are, in this
    order: the output directory is created, then cleared; the validation
    delegate is called with the run's own options exactly when [withZod]
    is truthy; the policy-starter delegate exactly when [withShield] is
    [true]; [getDMMF] is called with the preview features of the client
    generator; the project is saved.  The directory is cleared before the
    delegates write under it, not after. *)
Theorem effects_of_a_run_in_order
    (ext : Externals) (options : Options) (config : Config)
    (dmmf : Document) (w : World) :
  succeeds ext options config dmmf ->
  exists prov,
    prismaClientProvider options = Some prov
    /\ trace (snd (generate ext options w))
       = trace w ++
         [Mkdir (generator_output options);
          RemoveDir (generator_output options) true] ++
         (if Js.truthy (withZod config)
          then [CallZodGenerator options] else []) ++
         (if Js.is_true (withShield config)
          then [CallShieldGenerator (shield_options options config)]
          else []) ++
         [CallGetDMMF (datamodel options) (previewFeatures prov); Save].
Proof.
  intros Hok. rewrite (generate_succeeds _ _ _ _ w Hok).
  destruct Hok as (_ & _ & _ & prov & Hprov & _).
  exists prov. split; [exact Hprov|].
  cbn [snd trace]. unfold run_events. rewrite Hprov. reflexivity.
Qed.

Lemma effects_of_sample_run_witness :
  succeeds Sample.ext (Sample.options (Sample.raw "true" "findMany"))
    (Sample.config "true" "findMany") Sample.document
  /\ trace
       (snd (generate Sample.ext
               (Sample.options (Sample.raw "true" "findMany")) empty_world))
     = [Mkdir ["/app"; "generated"];
        RemoveDir ["/app"; "generated"] true;
        CallShieldGenerator
          (shield_options (Sample.options (Sample.raw "true" "findMany"))
             (Sample.config "true" "findMany"));
        CallGetDMMF "model Person {} model Secret {} model Order {}" [];
        Save].
Proof.
  assert (Hok :
    succeeds Sample.ext (Sample.options (Sample.raw "true" "findMany"))
      (Sample.config "true" "findMany") Sample.document)
    by sample_succeeds.
  split; [exact Hok|].
  destruct (effects_of_a_run_in_order Sample.ext _ _ _ empty_world Hok)
    as (prov & Hprov & Htrace).
  rewrite Htrace. injection Hprov as <-. reflexivity.
Defined.

(** ** The options of the policy-starter delegate *)

Lemma set_keys {V} (o : Js.object V) (k : string) (v : V) :
  Js.keys (Js.set o k v)
  = if Js.includes (Js.keys o) k then Js.keys o else Js.keys o ++ [k].
Proof.
  unfold Js.includes.
  induction o as [|[k0 v0] o IH]; cbn [Js.set Js.keys map existsb fst app].
  - reflexivity.
  - rewrite (String.eqb_sym k k0).
    destruct (String.eqb k0 k); cbn [Js.keys map fst orb].
    + reflexivity.
    + fold (Js.keys (Js.set o k v)). fold (Js.keys o). rewrite IH.
      now destruct (existsb (String.eqb k) (Js.keys o)).
Qed.

(** X7.  The policy-starter delegate is handed the run's options with the
    output directory replaced by its [shield] subdirectory and the raw
    configuration extended by [contextPath]: that key reads the parsed
    context path, every other key reads as before, the keys keep their
    order and [contextPath] is added last only when it was absent.  The
    other generators, the datamodel and the schema path are passed on. *)
Theorem shield_delegate_options
    (ext : Externals) (options : Options) (config : Config)
    (dmmf : Document) (w : World) :
  succeeds ext options config dmmf ->
  exists events,
    trace (snd (generate ext options w)) = trace w ++ events
    /\ forall o,
         In (CallShieldGenerator o) events ->
         generator_output o = generator_output options ++ ["shield"]
         /\ Js.get (generator_config o) "contextPath"
            = Some (contextPath config)
         /\ (forall k, k <> "contextPath" ->
               Js.get (generator_config o) k
               = Js.get (generator_config options) k)
         /\ Js.keys (generator_config o)
            = (if Js.includes (Js.keys (generator_config options))
                    "contextPath"
               then Js.keys (generator_config options)
               else Js.keys (generator_config options) ++ ["contextPath"])
         /\ otherGenerators o = otherGenerators options
         /\ datamodel o = datamodel options
         /\ schemaPath o = schemaPath options.
Proof.
  intros Hok. rewrite (generate_succeeds _ _ _ _ w Hok). cbn [snd trace].
  exists (run_events options config). split; [reflexivity|].
  intros o Ho. apply shield_call_in_run_events in Ho as [_ ->].
  unfold shield_options.
  cbn [generator_output generator_config otherGenerators datamodel
       schemaPath].
  split; [reflexivity|]. split.
  { rewrite get_set. now rewrite String.eqb_refl. }
  split.
  { intros k Hk. rewrite get_set.
    destruct (String.eqb "contextPath" k) eqn:E; [|reflexivity].
    apply String.eqb_eq in E. now subst k. }
  split; [apply set_keys|]. repeat split.
Qed.

Lemma shield_delegate_options_witness :
  succeeds Sample.ext (Sample.options (Sample.raw "true" "findMany"))
    (Sample.config "true" "findMany") Sample.document
  /\ exists events,
       trace
         (snd (generate Sample.ext
                 (Sample.options (Sample.raw "true" "findMany"))
                 empty_world))
       = events
       /\ forall o,
            In (CallShieldGenerator o) events ->
            generator_output o = ["/app"; "generated"; "shield"]
            /\ Js.keys (generator_config o)
               = ["withShield"; "generateModelActions"; "contextPath"]
            /\ Js.get (generator_config o) "contextPath"
               = Some "../src/context".
Proof.
  assert (Hok :
    succeeds Sample.ext (Sample.options (Sample.raw "true" "findMany"))
      (Sample.config "true" "findMany") Sample.document)
    by sample_succeeds.
  split; [exact Hok|].
  destruct (shield_delegate_options Sample.ext _ _ _ empty_world Hok)
    as (events & Htrace & Hcall).
  exists events. split; [exact Htrace|].
  intros o Ho. destruct (Hcall o Ho) as (Hout & Hget & _ & Hkeys & _).
  split; [exact Hout|]. split; [exact Hkeys | exact Hget].
Defined.

(** ** The files, statement by statement *)

(** X8.  After a run the bootstrap file holds the tRPC import, then the
    shield import exactly when [withShield] is truthy, then the base
    router, and is formatted last; neither the schema nor what the
    project held at that path plays a part. *)
Theorem bootstrap_file_after_run
    (ext : Externals) (options : Options) (config : Config)
    (dmmf : Document) (w : World) :
  succeeds ext options config dmmf ->
  project (snd (generate ext options w)) !! createRouter options
  = Some
      ([TRPCImport] ++
       (if Js.truthy (withShield config)
        then [ShieldImport options (withShield config)] else []) ++
       [BaseRouter config options; FormatText 2]).
Proof.
  intros Hok. rewrite (generate_succeeds _ _ _ _ w Hok). cbn [snd project].
  apply emit_files_createRouter.
Qed.

Lemma bootstrap_file_witness :
  succeeds Sample.ext (Sample.options (Sample.raw "false" "findMany"))
    (Sample.config "false" "findMany") Sample.document
  /\ project
       (snd (generate Sample.ext
               (Sample.options (Sample.raw "false" "findMany"))
               {| project :=
                    {[ createRouter
                         (Sample.options (Sample.raw "false" "findMany"))
                       := [FormatText 4] ]};
                  trace := [] |}))
     !! createRouter (Sample.options (Sample.raw "false" "findMany"))
     = Some
         [TRPCImport;
          BaseRouter (Sample.config "false" "findMany")
            (Sample.options (Sample.raw "false" "findMany"));
          FormatText 2].
Proof.
  assert (Hok :
    succeeds Sample.ext (Sample.options (Sample.raw "false" "findMany"))
      (Sample.config "false" "findMany") Sample.document)
    by sample_succeeds.
  split; [exact Hok|].
  apply (bootstrap_file_after_run Sample.ext _ _ _ _ Hok).
Defined.

(** X9.  The router file of a visible entity with a resolved operation
    reads, in this order: the bootstrap import; the validation-schema
    imports of the resolved operations, present exactly when [withZod] is
    truthy; the imports of the entity type, of [observable] and of the
    emitter [ee] from ["../."] followed by [emitterPath]; the opening of
    the router named by the plural; the endpoints; the closing.  It is
    formatted last. *)
Theorem router_file_after_run
    (ext : Externals) (options : Options) (config : Config)
    (dmmf : Document) (w : World) (mo : ModelMapping) :
  succeeds ext options config dmmf ->
  NoDup (map model (modelOperations dmmf)) ->
  In mo (modelOperations dmmf) ->
  Js.includes (resolveModelsComments ext (models dmmf)) (model mo) = false ->
  modelActions config (operations mo) <> [] ->
  exists file endpoints,
    project (snd (generate ext options w)) !! modelRouter options (model mo)
    = Some file
    /\ file
       = [CreateRouterImport (Some config)] ++
         (if Js.truthy (withZod config)
          then [RouterSchemaImports (model mo)
                  (modelActions config (operations mo))]
          else []) ++
         [ImportDeclaration "@prisma/client" [model mo];
          ImportDeclaration "@trpc/server/observable" ["observable"];
          ImportDeclaration ("../." +:+ emitterPath config) ["ee"];
          Statements
            (nl +:+ "      export const " +:+
             pluralize ext (Js.toLowerCase (model mo)) +:+
             "Router = t.router({")] ++
         endpoints ++
         [Statements (nl +:+ "    })"); FormatText 2]
    /\ Forall (fun s => is_procedure s = true) endpoints
    /\ ((exists m acts, In (RouterSchemaImports m acts) file)
        <-> Js.truthy (withZod config) = true).
Proof.
  intros Hok Hnd Hin Hvis Hacts.
  exists (router_file ext config mo),
         (map (dispatch_procedure ext config (model mo) (operations mo))
            (modelActions config (operations mo)) ++
          map (subscription_procedure config (model mo))
            subscriptionOperations).
  rewrite (generate_succeeds _ _ _ _ w Hok). cbn [snd project].
  assert (Hprocs :
    Forall (fun s => is_procedure s = true)
      (map (dispatch_procedure ext config (model mo) (operations mo))
         (modelActions config (operations mo)) ++
       map (subscription_procedure config (model mo))
         subscriptionOperations)).
  { apply Forall_app. split; apply Forall_forall; intros s Hs;
      apply list_elem_of_In, in_map_iff in Hs as (x & <- & _); reflexivity. }
  split; [|split; [|split; [exact Hprocs|]]].
  - apply emit_files_modelRouter; try assumption. now apply generated_spec.
  - unfold router_file. now rewrite <- !app_assoc.
  - unfold router_file.
    destruct (Js.truthy (withZod config)); split; intros H.
    + reflexivity.
    + do 2 eexists. rewrite in_app_iff. right.
      rewrite in_app_iff. left. left. reflexivity.
    + destruct H as (m & acts & H). exfalso.
      rewrite !in_app_iff in H.
      destruct H as [H|[H|[H|[H|[H|H]]]]].
      * destruct H as [H|[]]; discriminate H.
      * destruct H.
      * cbn [In] in H. intuition discriminate.
      * apply in_map_iff in H as (x & H & _). discriminate H.
      * apply in_map_iff in H as (x & H & _). discriminate H.
      * cbn [In] in H. intuition discriminate.
    + discriminate H.
Qed.

Lemma router_file_of_Order_witness :
  succeeds Sample.ext (Sample.options (Sample.raw "false" "findMany"))
    (Sample.config "false" "findMany") Sample.document
  /\ exists file endpoints,
       project
         (snd (generate Sample.ext
                 (Sample.options (Sample.raw "false" "findMany"))
                 empty_world))
       !! modelRouter (Sample.options (Sample.raw "false" "findMany"))
            "Order"
       = Some file
       /\ file
          = [CreateRouterImport (Some (Sample.config "false" "findMany"));
             ImportDeclaration "@prisma/client" ["Order"];
             ImportDeclaration "@trpc/server/observable" ["observable"];
             ImportDeclaration "../../src/emitter" ["ee"];
             Statements
               (nl +:+ "      export const ordersRouter = t.router({")] ++
            endpoints ++
            [Statements (nl +:+ "    })"); FormatText 2].
Proof.
  assert (Hok :
    succeeds Sample.ext (Sample.options (Sample.raw "false" "findMany"))
      (Sample.config "false" "findMany") Sample.document)
    by sample_succeeds.
  split; [exact Hok|].
  destruct (router_file_after_run Sample.ext _ _ _ empty_world
              (Sample.mapping "Order") Hok)
    as (file & endpoints & Hfile & Heq & _).
  - sample_NoDup.
  - right; right; left; reflexivity.
  - reflexivity.
  - discriminate.
  - exists file, endpoints. split; [exact Hfile | exact Heq].
Defined.

(** X10.  The aggregate router lists the generated entities in the order
    of the mapping table: it holds one import per visible entity with a
    resolved operation, in that order, and its dispatch object holds
    their entries in the same order, so the i-th import and the i-th
    entry belong to the same entity. *)
Theorem aggregate_keeps_declaration_order
    (ext : Externals) (options : Options) (config : Config)
    (dmmf : Document) (w : World) :
  succeeds ext options config dmmf ->
  let entities :=
    List.filter
      (fun mo =>
         negb (Js.includes (resolveModelsComments ext (models dmmf))
                 (model mo))
         && negb (Nat.eqb (List.length (modelActions config (operations mo)))
                    0))
      (modelOperations dmmf) in
  project (snd (generate ext options w)) !! appRouter options
  = Some
      ([CreateRouterImport None] ++
       map (fun mo =>
              RouterImport (pluralize ext (Js.toLowerCase (model mo)))
                (model mo))
         entities ++
       [Statements
          (nl +:+ "    export const appRouter = t.router({" +:+
           Js.join ","
             (map (fun mo =>
                     nl +:+ "      " +:+ Js.toLowerCase (model mo) +:+ ": "
                     +:+ (pluralize ext (Js.toLowerCase (model mo))
                          +:+ "Router"))
                entities) +:+
           "})" +:+ nl +:+ "    ");
        FormatText 2]).
Proof.
  intros Hok entities. rewrite (generate_succeeds _ _ _ _ w Hok).
  cbn [snd project]. apply emit_files_appRouter.
Qed.

Lemma aggregate_order_witness :
  succeeds Sample.ext (Sample.options (Sample.raw "false" "findMany"))
    (Sample.config "false" "findMany") Sample.document
  /\ project
       (snd (generate Sample.ext
               (Sample.options (Sample.raw "false" "findMany"))
               empty_world))
     !! appRouter (Sample.options (Sample.raw "false" "findMany"))
     = Some
         [CreateRouterImport None;
          RouterImport "people" "Person";
          RouterImport "orders" "Order";
          Statements
            (nl +:+ "    export const appRouter = t.router({" +:+
             nl +:+ "      person: peopleRouter," +:+
             nl +:+ "      order: ordersRouter})" +:+ nl +:+ "    ");
          FormatText 2].
Proof.
  assert (Hok :
    succeeds Sample.ext (Sample.options (Sample.raw "false" "findMany"))
      (Sample.config "false" "findMany") Sample.document)
    by sample_succeeds.
  split; [exact Hok|].
  rewrite (aggregate_keeps_declaration_order Sample.ext _ _ _ empty_world
             Hok).
  vm_compute. reflexivity.
Defined.

(** ** What a run does not touch *)

(** X11.  A run changes the project only at the paths of the bootstrap
    file, of the aggregate router, of the policy file when [withShield]
    is truthy, and of the router files of the visible entities with a
    resolved operation: every other path, in particular every path
    outside the output directory, holds what it held. *)
Theorem run_writes_only_its_files
    (ext : Externals) (options : Options) (config : Config)
    (dmmf : Document) (w : World) (p : Path) :
  succeeds ext options config dmmf ->
  project (snd (generate ext options w)) !! p <> project w !! p ->
  exists rest,
    p = generator_output options ++ rest
    /\ (rest = ["routers"; "helpers"; "createRouter.ts"]
        \/ rest = ["routers"; "index.ts"]
        \/ (rest = ["shield"; "shield.ts"]
            /\ Js.truthy (withShield config) = true)
        \/ exists mo,
             In mo (modelOperations dmmf)
             /\ Js.includes (resolveModelsComments ext (models dmmf))
                  (model mo) = false
             /\ modelActions config (operations mo) <> []
             /\ rest = ["routers"; model mo +:+ ".router.ts"]).
Proof.
  intros Hok. rewrite (generate_succeeds _ _ _ _ w Hok). cbn [snd project].
  intros Hchanged.
  destruct (decide (p = appRouter options)) as [->|Happ].
  { eexists. split; [reflexivity|]. auto. }
  destruct (decide (p = createRouter options)) as [->|Hcreate].
  { eexists. split; [reflexivity|]. auto. }
  destruct
    (decide (p = shieldFile options /\ Js.truthy (withShield config) = true))
    as [[-> Hs]|Hshield].
  { eexists. split; [reflexivity|]. auto. }
  destruct (decide
              (Exists (fun mo => modelRouter options (model mo) = p)
                 (generated_entities ext config dmmf))) as [Hex|Hnone].
  { apply Exists_exists in Hex as (mo & Hmo & <-).
    apply list_elem_of_In in Hmo. unfold generated_entities in Hmo.
    apply filter_In in Hmo as [Hin Hgen].
    apply generated_spec in Hgen as [Hvis Hacts].
    eexists. split; [reflexivity|]. right; right; right.
    exists mo. auto. }
  exfalso. apply Hchanged.
  rewrite emit_files_other by assumption.
  unfold after_shield.
  assert (Hloop :
    fst (fold_left
           (router_step ext options config
              (resolveModelsComments ext (models dmmf)))
           (modelOperations dmmf)
           (before_loop options config (project w), []))
      !! p
    = project w !! p).
  { rewrite router_loop_other; try assumption.
    - unfold before_loop. cbn [fst].
      rewrite lookup_insert_ne by auto.
      now rewrite lookup_insert_ne by auto.
    - intros mo Hin Hgen Heq. apply Hnone. apply Exists_exists.
      exists mo. split; [|exact Heq].
      apply list_elem_of_In. unfold generated_entities.
      apply filter_In. auto. }
  destruct (Js.truthy (withShield config)) eqn:Es; [|exact Hloop].
  rewrite lookup_insert_ne; [exact Hloop|].
  intros Heq. apply Hshield. auto.
Qed.

Lemma run_writes_only_its_files_witness :
  succeeds Sample.ext (Sample.options (Sample.raw "false" "findMany"))
    (Sample.config "false" "findMany") Sample.document
  /\ project
       (snd (generate Sample.ext
               (Sample.options (Sample.raw "false" "findMany"))
               empty_world))
     !! ["/app"; "generated"; "routers"; "Order.router.ts"]
     <> project empty_world
        !! ["/app"; "generated"; "routers"; "Order.router.ts"]
  /\ exists mo,
       In mo (modelOperations Sample.document)
       /\ model mo +:+ ".router.ts" = "Order.router.ts".
Proof.
  assert (Hok :
    succeeds Sample.ext (Sample.options (Sample.raw "false" "findMany"))
      (Sample.config "false" "findMany") Sample.document)
    by sample_succeeds.
  assert (Hchanged :
    project
      (snd (generate Sample.ext
              (Sample.options (Sample.raw "false" "findMany"))
              empty_world))
    !! ["/app"; "generated"; "routers"; "Order.router.ts"]
    <> project empty_world
       !! ["/app"; "generated"; "routers"; "Order.router.ts"]).
  { vm_compute. discriminate. }
  split; [exact Hok|]. split; [exact Hchanged|].
  destruct (run_writes_only_its_files Sample.ext _ _ _ empty_world _
              Hok Hchanged)
    as (rest & Hrest & Hkind).
  apply (app_inv_head ["/app"; "generated"]) in Hrest. subst rest.
  destruct Hkind as [H|[H|[[H _]|(mo & Hin & _ & _ & H)]]];
    try discriminate H.
  exists mo. split; [exact Hin|]. now injection H as <-.
Defined.

(** ** A schema without generated entity *)

(** X12.  When every entity of the mapping table is hidden or without
    resolved operation, and in particular when the table is empty, the
    run still returns: it writes no router file at all, and the aggregate
    router imports nothing and exports the empty dispatch object
    [t.router({})]. *)
Theorem no_generated_entity_gives_empty_aggregate
    (ext : Externals) (options : Options) (config : Config)
    (dmmf : Document) (w : World) :
  succeeds ext options config dmmf ->
  (forall mo,
     In mo (modelOperations dmmf) ->
     Js.includes (resolveModelsComments ext (models dmmf)) (model mo) = true
     \/ modelActions config (operations mo) = []) ->
  fst (generate ext options w) = inr tt
  /\ (forall m,
        project (snd (generate ext options w)) !! modelRouter options m
        = project w !! modelRouter options m)
  /\ project (snd (generate ext options w)) !! appRouter options
     = Some
         [CreateRouterImport None;
          Statements
            (nl +:+ "    export const appRouter = t.router({})" +:+ nl +:+
             "    ");
          FormatText 2].
Proof.
  intros Hok Hnone. rewrite (generate_succeeds _ _ _ _ w Hok).
  cbn [fst snd project].
  assert (Hempty : generated_entities ext config dmmf = []).
  { unfold generated_entities.
    induction (modelOperations dmmf) as [|mo mos IH]; [reflexivity|].
    cbn [List.filter].
    assert (Hmo : generated config (resolveModelsComments ext (models dmmf))
                    mo = false).
    { destruct (generated config _ mo) eqn:E; [|reflexivity].
      apply generated_spec in E as [Hvis Hacts].
      destruct (Hnone mo) as [H|H]; [now left | congruence | contradiction]. }
    rewrite Hmo. apply IH. intros mo' Hin. apply Hnone. now right. }
  split; [reflexivity|]. split.
  - intros m. apply emit_files_no_modelRouter.
    rewrite Hempty. intros mo [].
  - rewrite emit_files_appRouter. unfold aggregate_file.
    rewrite Hempty. reflexivity.
Qed.

Lemma empty_schema_witness :
  project
    (snd (generate
            (Faulty.ext None None
               (inr {| modelOperations := []; models := [] |}))
            (Sample.options []) empty_world))
  !! appRouter (Sample.options [])
  = Some
      [CreateRouterImport None;
       Statements
         (nl +:+ "    export const appRouter = t.router({})" +:+ nl +:+
          "    ");
       FormatText 2].
Proof.
  apply (no_generated_entity_gives_empty_aggregate
           (Faulty.ext None None
              (inr {| modelOperations := []; models := [] |}))
           (Sample.options []) Faulty.config
           {| modelOperations := []; models := [] |} empty_world).
  - unfold succeeds.
    split; [reflexivity|].
    split; [intros _; reflexivity|].
    split; [intros _; reflexivity|].
    eexists; split; reflexivity.
  - intros mo [].
Defined.

(** ** Hidden entities, in general *)

Lemma hidden_entity_witness :
  succeeds Sample.ext (Sample.options (Sample.raw "false" "findMany"))
    (Sample.config "false" "findMany") Sample.document
  /\ Js.includes
       (resolveModelsComments Sample.ext (models Sample.document)) "Secret"
     = true
  /\ project
       (snd (generate Sample.ext
               (Sample.options (Sample.raw "false" "findMany"))
               empty_world))
     !! modelRouter (Sample.options (Sample.raw "false" "findMany")) "Secret"
     = None.
Proof.
  assert (Hok :
    succeeds Sample.ext (Sample.options (Sample.raw "false" "findMany"))
      (Sample.config "false" "findMany") Sample.document)
    by sample_succeeds.
  split; [exact Hok|]. split; [reflexivity|].
  apply (hidden_entity_gets_no_router Sample.ext _ _ _ empty_world "Secret"
           Hok eq_refl).
Defined.

(** ** Files of earlier runs *)



(** ** The permission matrix, entry by entry *)

Lemma set_fresh {V} (o : Js.object V) (k : string) (v : V) :
  ~ In k (Js.keys o) -> Js.set o k v = o ++ [(k, v)].
Proof.
  induction o as [|[k0 v0] o IH]; cbn [Js.set Js.keys map fst In app].
  - reflexivity.
  - intros Hk. destruct (String.eqb k0 k) eqn:E.
    + apply String.eqb_eq in E. tauto.
    + f_equal. apply IH. tauto.
Qed.

Lemma keys_app {V} (o o' : Js.object V) :
  Js.keys (o ++ o') = Js.keys o ++ Js.keys o'.
Proof. unfold Js.keys. apply map_app. Qed.

(** Writing the entries of one entity into a bucket that holds none of
    them appends them in the order of the operations. *)
Lemma fold_set_fresh (ops : list string) (m : string) :
  NoDup ops -> unambiguous ops ->
  forall o : Js.object string,
    (forall op, In op ops -> ~ In (op +:+ m) (Js.keys o)) ->
    fold_left (fun o op => Js.set o (op +:+ m) "allow") ops o
    = o ++ map (fun op => (op +:+ m, "allow")) ops.
Proof.
  intros Hnd Hun. induction Hnd as [|a ops Ha Hnd IH]; intros o Hfresh.
  - cbn. now rewrite app_nil_r.
  - cbn [fold_left map]. rewrite set_fresh by (apply Hfresh; now left).
    assert (Hun' : unambiguous ops).
    { intros op op' n n' Hop Hop'. apply Hun; now right. }
    rewrite (IH Hun').
    + now rewrite <- app_assoc.
    + intros op Hop. rewrite keys_app, in_app_iff. intros [Hin|Hin].
      * apply (Hfresh op); [now right | exact Hin].
      * cbn in Hin. destruct Hin as [Heq|[]].
        destruct (Hun a op m m) as [-> _]; [now left | now right | exact Heq |].
        apply Ha. now apply list_elem_of_In.
Qed.

(** The same for the whole mapping table, when entity names are unique. *)
Lemma bucket_loop_fresh (ops : list string) :
  NoDup ops -> unambiguous ops ->
  forall (mos : list ModelMapping) (o : Js.object string),
    NoDup (map model mos) ->
    (forall mo op, In mo mos -> In op ops ->
                   ~ In (op +:+ model mo) (Js.keys o)) ->
    fold_left
      (fun o mo =>
         fold_left (fun o op => Js.set o (op +:+ model mo) "allow") ops o)
      mos o
    = o ++ bucket_entries ops mos.
Proof.
  intros Hnd Hun mos.
  induction mos as [|mo mos IH]; intros o Hnames Hfresh.
  - cbn. now rewrite app_nil_r.
  - cbn [fold_left bucket_entries flat_map].
    cbn [map] in Hnames. apply NoDup_cons in Hnames as [Hmo Hnames].
    rewrite fold_set_fresh; try assumption.
    2:{ intros op Hop. apply Hfresh; [now left | exact Hop]. }
    rewrite IH; try assumption.
    + now rewrite <- app_assoc.
    + intros mo' op Hmo' Hop. rewrite keys_app, in_app_iff.
      intros [Hin|Hin].
      * apply (Hfresh mo' op); [now right | exact Hop | exact Hin].
      * unfold Js.keys in Hin. rewrite map_map in Hin. cbn [fst] in Hin.
        apply in_map_iff in Hin as (op' & Heq & Hop').
        destruct (Hun op' op (model mo) (model mo')) as [_ Hm];
          try assumption.
        apply Hmo. rewrite Hm. apply list_elem_of_In. now apply in_map.
Qed.

Ltac unambiguous_ops :=
  let Heq := fresh "Heq" in
  let Hop := fresh "Hop" in
  let Hop' := fresh "Hop'" in
  intros ? ? ? ? Hop Hop' Heq; cbn [In] in Hop, Hop';
  repeat
    match goal with
    | H : _ \/ _ |- _ => destruct H
    | H : False |- _ => destruct H
    end;
  subst; cbv [String.append] in Heq;
  first [ split; [reflexivity | congruence] | exfalso; congruence ].

Lemma queryOperations_unambiguous : unambiguous queryOperations.
Proof. unfold unambiguous, queryOperations. unambiguous_ops. Qed.

Lemma mutationOperations_unambiguous : unambiguous mutationOperations.
Proof. unfold unambiguous, mutationOperations. unambiguous_ops. Qed.

Lemma subscriptionOperations_unambiguous :
  unambiguous subscriptionOperations.
Proof. unfold unambiguous, subscriptionOperations. unambiguous_ops. Qed.

Ltac NoDup_ops :=
  repeat
    (apply NoDup_cons_2;
     [ let H := fresh in
       intros H; apply list_elem_of_In in H; cbn [In] in H;
       intuition discriminate
     | ]);
  apply NoDup_nil_2.

Lemma shield_loop_buckets (mos : list ModelMapping) (sc : ShieldConfig) :
  query (fold_left shield_step mos sc)
  = fold_left
      (fun o mo =>
         fold_left (fun o op => Js.set o (op +:+ model mo) "allow")
           queryOperations o)
      mos (query sc)
  /\ mutation (fold_left shield_step mos sc)
     = fold_left
         (fun o mo =>
            fold_left (fun o op => Js.set o (op +:+ model mo) "allow")
              mutationOperations o)
         mos (mutation sc)
  /\ subscription (fold_left shield_step mos sc)
     = fold_left
         (fun o mo =>
            fold_left (fun o op => Js.set o (op +:+ model mo) "allow")
              subscriptionOperations o)
         mos (subscription sc).
Proof.
  revert sc. induction mos as [|mo mos IH]; intros sc.
  - repeat split.
  - cbn [fold_left]. destruct (IH (shield_step sc mo)) as (-> & -> & ->).
    repeat split.
Qed.

(** X15.  With entity names unique, each bucket of the permission matrix
    lists, entity by entity in the order of the mapping table, the
    canonical operations of its kind in their fixed order, suffixed with
    the entity name and mapped to ["allow"]: no key is written twice, so
    no entry is lost or moved. *)
Theorem policy_buckets_in_declaration_order (mos : list ModelMapping) :
  NoDup (map model mos) ->
  query (shieldConfig mos)
  = flat_map
      (fun mo =>
         map (fun op => (op +:+ model mo, "allow"))
           ["aggregate"; "findFirst"; "findMany"; "findUnique"; "groupBy"])
      mos
  /\ mutation (shieldConfig mos)
     = flat_map
         (fun mo =>
            map (fun op => (op +:+ model mo, "allow"))
              ["createOne"; "deleteMany"; "deleteOne"; "updateMany";
               "updateOne"; "upsertOne"])
         mos
  /\ subscription (shieldConfig mos)
     = flat_map
         (fun mo =>
            map (fun op => (op +:+ model mo, "allow"))
              ["create"; "update"; "delete"])
         mos.
Proof.
  intros Hnames. unfold shieldConfig.
  destruct (shield_loop_buckets mos empty_shieldConfig) as (-> & -> & ->).
  cbn [empty_shieldConfig query mutation subscription].
  split; [|split].
  - rewrite (bucket_loop_fresh queryOperations); try assumption.
    + reflexivity.
    + unfold queryOperations. NoDup_ops.
    + apply queryOperations_unambiguous.
    + intros mo op _ _ [].
  - rewrite (bucket_loop_fresh mutationOperations); try assumption.
    + reflexivity.
    + unfold mutationOperations. NoDup_ops.
    + apply mutationOperations_unambiguous.
    + intros mo op _ _ [].
  - rewrite (bucket_loop_fresh subscriptionOperations); try assumption.
    + reflexivity.
    + unfold subscriptionOperations. NoDup_ops.
    + apply subscriptionOperations_unambiguous.
    + intros mo op _ _ [].
Qed.

Lemma policy_buckets_of_sample_witness :
  NoDup (map model (modelOperations Sample.document))
  /\ subscription (shieldConfig (modelOperations Sample.document))
     = [("createPerson", "allow"); ("updatePerson", "allow");
        ("deletePerson", "allow");
        ("createSecret", "allow"); ("updateSecret", "allow");
        ("deleteSecret", "allow");
        ("createOrder", "allow"); ("updateOrder", "allow");
        ("deleteOrder", "allow")].
Proof.
  assert (Hnd : NoDup (map model (modelOperations Sample.document)))
    by sample_NoDup.
  split; [exact Hnd|].
  destruct (policy_buckets_in_declaration_order
              (modelOperations Sample.document) Hnd) as (_ & _ & Hsub).
  rewrite Hsub. reflexivity.
Defined.

(** ** The paths of a run *)

(** X16.  The files of a run never overwrite one another: the router
    files of two entities share a path only when the entities share their
    name, and no entity name, not even [index], [shield] or
    [createRouter], makes a router file take the path of the aggregate
    router, of the bootstrap file or of the policy file, which differ
    from one another. *)
Theorem generated_paths_never_collide (options : Options) (m m' : string) :
  (modelRouter options m = modelRouter options m' <-> m = m')
  /\ modelRouter options m <> appRouter options
  /\ modelRouter options m <> createRouter options
  /\ modelRouter options m <> shieldFile options
  /\ appRouter options <> createRouter options
  /\ appRouter options <> shieldFile options
  /\ createRouter options <> shieldFile options.
Proof.
  split.
  { split; [apply modelRouter_inj | now intros ->]. }
  split; [apply modelRouter_appRouter|].
  split; [apply modelRouter_createRouter|].
  split; [apply modelRouter_shieldFile|].
  split; [apply appRouter_createRouter|].
  split; [apply appRouter_shieldFile | apply createRouter_shieldFile].
Qed.
